(** * LifeLine: donor eligibility and request matching

    A shallow embedding of the business rules of the LifeLine blood-donation
    application ([users/models.py], [users/views.py]) together with the
    properties stated about them.

    The Python methods are embedded as functions into a small error monad:
    an operation that Python would reject at run time ([None >= 50],
    [None.year], ...) yields [Raise], so that "the predicate does not raise"
    is a statement about the embedding and not an artefact of typing.
    The wall clock ([timezone.now()]) is an explicit argument. *)

From Stdlib Require Import ZArith QArith Bool List Ascii String DecimalString Lia.
Import ListNotations.

Local Open Scope string_scope.
Local Open Scope Z_scope.

(* ================================================================== *)
(** * Calendar dates and instants ([datetime.date], [datetime.datetime]) *)
(* ================================================================== *)

Module Calendar.

(** [datetime.date]: proleptic Gregorian year, month, day. *)
Record date := mkDate { year : Z; month : Z; day : Z }.

(** [_is_leap] *)
Definition is_leap (y : Z) : bool :=
  (y mod 4 =? 0) && (negb (y mod 100 =? 0) || (y mod 400 =? 0)).

(** [_days_before_year]: days before January 1st of year [y]. *)
Definition days_before_year (y : Z) : Z :=
  let p := y - 1 in p * 365 + p / 4 - p / 100 + p / 400.

(** [_DAYS_IN_MONTH] / [_days_in_month] *)
Definition days_in_month (y m : Z) : Z :=
  if m =? 2 then (if is_leap y then 29 else 28)
  else if (m =? 4) || (m =? 6) || (m =? 9) || (m =? 11) then 30
  else 31.

(** [_DAYS_BEFORE_MONTH]: cumulative table for a common year. *)
Definition days_before_month_table (m : Z) : Z :=
  nth (Z.to_nat m) [-1; 0; 31; 59; 90; 120; 151; 181; 212; 243; 273; 304; 334] 0.

(** [_days_before_month] *)
Definition days_before_month (y m : Z) : Z :=
  days_before_month_table m + Z.b2z ((2 <? m) && is_leap y).

(** [date.toordinal]: January 1st of year 1 is day 1. *)
Definition toordinal (d : date) : Z :=
  days_before_year (year d) + days_before_month (year d) (month d) + day d.

(** The dates Python can construct. *)
Definition valid_date (d : date) : bool :=
  (1 <=? year d) && (year d <=? 9999) &&
  (1 <=? month d) && (month d <=? 12) &&
  (1 <=? day d) && (day d <=? days_in_month (year d) (month d)).

(** Month and day as the calendar has them, whatever the year. *)
Definition month_day_ok (d : date) : Prop :=
  1 <= month d <= 12 /\ 1 <= day d <= days_in_month (year d) (month d).

(** [(a - b).days] for two dates. *)
Definition sub_days (a b : date) : Z := toordinal a - toordinal b.

(** The calendar successor of a date (used only to validate [toordinal]). *)
Definition next_day (d : date) : date :=
  if day d <? days_in_month (year d) (month d)
  then mkDate (year d) (month d) (day d + 1)
  else if month d <? 12 then mkDate (year d) (month d + 1) 1
  else mkDate (year d + 1) 1 1.

(** Tuple comparison [(a1, a2) < (b1, b2)] on integers. *)
Definition pair_lt (a b : Z * Z) : bool :=
  (fst a <? fst b) || ((fst a =? fst b) && (snd a <? snd b)).

(** A timezone-aware [datetime.datetime] in UTC: its calendar date and the
    microseconds elapsed since midnight. *)
Record datetime := mkDateTime { dt_date : date; dt_micros : Z }.

Definition micros_per_day : Z := 86400000000.

(** Aware datetimes are ordered as instants on the time line. *)
Definition instant (t : datetime) : Z :=
  toordinal (dt_date t) * micros_per_day + dt_micros t.

Definition datetime_gt (a b : datetime) : bool := instant b <? instant a.

End Calendar.
Import Calendar.

(* ================================================================== *)
(** * Python values, truthiness and the operations the code uses       *)
(* ================================================================== *)

Module Py.

(** A Python [float].  Every finite binary64 number is a rational, and the
    code only tests a float for zero and compares it with an integer, both
    of which Python decides exactly. *)
Inductive pyfloat :=
| FNan
| FInf (negative : bool)
| FFinite (q : Q).

Inductive value :=
| VNone
| VBool (b : bool)
| VInt (z : Z)
| VFloat (f : pyfloat)
| VStr (s : string)
| VDate (d : date)
| VDateTime (t : datetime).

(** The exceptions the modelled code can meet: Python's own, Django's
    [IntegrityError] (a database constraint), and the two errors of
    [QuerySet.get]. *)
Inductive exn :=
| TypeError
| AttributeError
| IntegrityError
| DoesNotExist
| MultipleObjectsReturned.

Inductive result (A : Type) :=
| Ret (a : A)
| Raise (e : exn).
Arguments Ret {A} a.
Arguments Raise {A} e.

Definition bind {A B} (m : result A) (k : A -> result B) : result B :=
  match m with
  | Ret a => k a
  | Raise e => Raise e
  end.

(** [bool(v)] *)
Definition truthy (v : value) : bool :=
  match v with
  | VNone => false
  | VBool b => b
  | VInt z => negb (z =? 0)
  | VFloat (FFinite q) => negb (Qeq_bool q 0)
  | VFloat _ => true
  | VStr s => negb (s =? "")%string
  | VDate _ => true
  | VDateTime _ => true
  end.

(** Numbers ([bool] is a subtype of [int]); [None] otherwise. *)
Definition as_number (v : value) : option pyfloat :=
  match v with
  | VBool b => Some (FFinite (inject_Z (Z.b2z b)))
  | VInt z => Some (FFinite (inject_Z z))
  | VFloat f => Some f
  | _ => None
  end.

(** [x <= y] on floats, IEEE style: false as soon as a NaN is involved. *)
Definition float_le (x y : pyfloat) : bool :=
  match x, y with
  | FNan, _ | _, FNan => false
  | FInf true, _ => true
  | _, FInf false => true
  | FInf false, _ => false
  | _, FInf true => false
  | FFinite p, FFinite q => Qle_bool p q
  end.

(** [x < y] on floats. *)
Definition float_lt (x y : pyfloat) : bool :=
  match x, y with
  | FNan, _ | _, FNan => false
  | FInf true, FInf true => false
  | FInf true, _ => true
  | FInf false, _ => false
  | FFinite _, FInf neg => negb neg
  | FFinite p, FFinite q => negb (Qle_bool q p)
  end.

(** [a <= b]: defined on two numbers, two dates or two datetimes;
    [TypeError] on anything else the code could hand over ([None] on
    either side in particular).  Python also orders two strings; the
    code never does, and the embedding leaves that case out. *)
Definition le (a b : value) : result value :=
  match a, b with
  | VDate x, VDate y => Ret (VBool (toordinal x <=? toordinal y))
  | VDateTime x, VDateTime y => Ret (VBool (instant x <=? instant y))
  | _, _ =>
      match as_number a, as_number b with
      | Some x, Some y => Ret (VBool (float_le x y))
      | _, _ => Raise TypeError
      end
  end.

(** [a >= b] *)
Definition ge (a b : value) : result value := le b a.

(** [a > b] *)
Definition gt (a b : value) : result value :=
  match a, b with
  | VDate x, VDate y => Ret (VBool (toordinal y <? toordinal x))
  | VDateTime x, VDateTime y => Ret (VBool (datetime_gt x y))
  | _, _ =>
      match as_number a, as_number b with
      | Some x, Some y => Ret (VBool (float_lt y x))
      | _, _ => Raise TypeError
      end
  end.

(** [(a - b).days]: only a date minus a date. *)
Definition sub_date_days (a b : value) : result value :=
  match a, b with
  | VDate x, VDate y => Ret (VInt (sub_days x y))
  | _, _ => Raise TypeError
  end.

(** [v.year], [v.month], [v.day] *)
Definition attr_ymd (v : value) : result (Z * Z * Z) :=
  match v with
  | VDate d => Ret (year d, month d, day d)
  | VDateTime t => Ret (year (dt_date t), month (dt_date t), day (dt_date t))
  | _ => Raise AttributeError
  end.

(** [a and b]: the value of [a] when it is falsy, otherwise [b]; [b] is
    not consulted (and cannot raise) when [a] is falsy. *)
Definition and_ (a b : result value) : result value :=
  match a with
  | Raise e => Raise e
  | Ret v => if truthy v then b else Ret v
  end.

(** [not a] *)
Definition not_ (a : result value) : result value :=
  bind a (fun v => Ret (VBool (negb (truthy v)))).

(** The call returned a truthy / a falsy value (and did not raise). *)
Definition returns_truthy (r : result value) : Prop :=
  exists v, r = Ret v /\ truthy v = true.

Definition returns_falsy (r : result value) : Prop :=
  exists v, r = Ret v /\ truthy v = false.

(** Views of nullable model fields as Python values. *)
Definition of_date (o : option date) : value :=
  match o with Some d => VDate d | None => VNone end.

Definition of_datetime (o : option datetime) : value :=
  match o with Some t => VDateTime t | None => VNone end.

Definition of_float (o : option pyfloat) : value :=
  match o with Some f => VFloat f | None => VNone end.

End Py.
Import Py.

Notation "x <- m ;; k" := (bind m (fun x => k))
  (at level 61, m at next level, right associativity).
Notation "' pat <- m ;; k" := (bind m (fun x => match x with pat => k end))
  (at level 61, pat pattern, m at next level, right associativity).
Notation "a 'and'' b" := (and_ a b) (at level 58, right associativity).

(* ================================================================== *)
(** * The data model ([users/models.py])                               *)
(* ================================================================== *)

(** [User]: the columns the business rules read or write.  [id] is the
    primary key of a saved row; nullable columns are options; a blank
    [CharField] is the empty string. *)
Record User := mkUser {
  id : Z;
  email : string;
  full_name : string;
  date_of_birth : option date;
  blood_group : string;
  weight : option pyfloat;
  last_donation_date : option date;
  is_email_verified : bool;
  is_donor : bool;
  is_recipient : bool;
  is_available_for_donation : bool;
  email_verification_token : Z;
  updated_at : datetime
}.

(** What a view receives as [request.user] or a caller passes as [user]:
    a saved [User] (whose [is_authenticated] is always true) or Django's
    [AnonymousUser] (always false); [None] is the absent option. *)
Inductive principal :=
| AnonymousUser
| LoggedIn (u : User).

Definition is_authenticated (p : principal) : bool :=
  match p with
  | AnonymousUser => false
  | LoggedIn _ => true
  end.

(** [BloodRequest]; [requester] is the row the foreign key points to. *)
Record BloodRequest := mkBloodRequest {
  request_id : Z;
  requester : User;
  patient_name : string;
  blood_group_needed : string;
  units_needed : Z;
  urgency : string;
  needed_by_date : option datetime;
  status : string;
  is_public : bool
}.

(** [Model.__eq__] on saved rows of one model compares primary keys;
    [a != b] is its negation. *)
Definition user_ne (a b : User) : bool := negb (id a =? id b).

(* ================================================================== *)
(** * Eligibility ([User.can_donate], [get_age], [is_eligible_donor])  *)
(* ================================================================== *)

(** [User.can_donate]; [today] is [timezone.now().date()]. *)
Definition can_donate (self : User) (today : date) : result value :=
  if negb (is_donor self) || negb (is_available_for_donation self)
  then Ret (VBool false)
  else if truthy (of_date (last_donation_date self))
  then
    days_since_last_donation <-
      sub_date_days (VDate today) (of_date (last_donation_date self)) ;;
    ge days_since_last_donation (VInt 90)
  else Ret (VBool true).

(** [User.get_age]; [today] is [timezone.now().date()]. *)
Definition get_age (self : User) (today : date) : result value :=
  if truthy (of_date (date_of_birth self))
  then
    '(y, m, d) <- attr_ymd (of_date (date_of_birth self)) ;;
    Ret (VInt (year today - y - Z.b2z (pair_lt (month today, day today) (m, d))))
  else Ret VNone.

(** [User.is_eligible_donor].  [18 <= age <= 65] is Python's chained
    comparison [18 <= age and age <= 65]. *)
Definition is_eligible_donor (self : User) (today : date) : result value :=
  age <- get_age self today ;;
  if negb (truthy age)
  then Ret (VBool false)
  else
    le (VInt 18) age and' le age (VInt 65) and'
    Ret (of_float (weight self)) and' ge (of_float (weight self)) (VInt 50) and'
    Ret (VStr (blood_group self)) and'
    can_donate self today.

(* ================================================================== *)
(** * Requests ([BloodRequest.is_expired], [can_accept],
      [get_compatible_donors])                                         *)
(* ================================================================== *)

(** [BloodRequest.is_expired]; [now] is [timezone.now()]. *)
Definition is_expired (self : BloodRequest) (now : datetime) : result value :=
  match needed_by_date self with
  | None => Ret (VBool false)
  | Some _ => gt (VDateTime now) (of_datetime (needed_by_date self))
  end.

(** [BloodRequest.can_accept]; the one clock reading [now] stands for the
    calls of [timezone.now()] made while the method runs. *)
Definition can_accept (self : BloodRequest) (user : option principal)
    (now : datetime) : result value :=
  match user with
  | None => Ret (VBool false)
  | Some AnonymousUser => Ret (VBool false)
  | Some (LoggedIn u) =>
      Ret (VBool (user_ne u (requester self))) and'
      is_eligible_donor u (dt_date now) and'
      Ret (VBool (blood_group u =? blood_group_needed self)%string) and'
      Ret (VBool (status self =? "ACTIVE")%string) and'
      not_ (is_expired self now)
  end.

(** [BloodRequest.get_compatible_donors] over the rows of [User.objects]. *)
Definition get_compatible_donors (users : list User) (self : BloodRequest)
    : list User :=
  filter (fun u => negb (id u =? id (requester self)))
    (filter (fun u =>
               (blood_group u =? blood_group_needed self)%string &&
               Bool.eqb (is_donor u) true &&
               Bool.eqb (is_available_for_donation u) true &&
               Bool.eqb (is_email_verified u) true)
            users).

(** The pieces of the eligibility rule, read off the values the methods
    compute. *)
Definition age_on (dob today : date) : Z :=
  year today - year dob -
  Z.b2z (pair_lt (month today, day today) (month dob, day dob)).

Definition age_in_range (u : User) (today : date) : Prop :=
  exists a, get_age u today = Ret (VInt a) /\ 18 <= a <= 65.

Definition weight_at_least (k : Z) (u : User) : Prop :=
  exists w, weight u = Some w /\ float_le (FFinite (inject_Z k)) w = true.


(** No donation on record, or the last one at least 90 days before [today]. *)
Definition cooldown_over (u : User) (today : date) : bool :=
  match last_donation_date u with
  | Some d => 90 <=? sub_days today d
  | None => true
  end.

(** The deadline of the request, if it has one, lies before [now]. *)
Definition expired_at (r : BloodRequest) (now : datetime) : bool :=
  match needed_by_date r with
  | Some deadline => datetime_gt now deadline
  | None => false
  end.

(** [deadline] is [now + timedelta(days=1)]. *)
Definition one_day_ahead (now deadline : datetime) : Prop :=
  instant deadline = instant now + micros_per_day.

(** The situation of the worked example of the specification: a user aged
    30 who weighs 60 kg, has blood group O+, is available and verified, and
    an active request for O+ that is needed one day from now. *)
Definition example_premises (u : User) (r : BloodRequest) (now : datetime)
    : Prop :=
  get_age u (dt_date now) = Ret (VInt 30) /\
  weight u = Some (FFinite (inject_Z 60)) /\
  blood_group u = "O+" /\
  is_available_for_donation u = true /\
  is_email_verified u = true /\
  blood_group_needed r = "O+" /\
  status r = "ACTIVE" /\
  exists deadline, needed_by_date r = Some deadline /\ one_day_ahead now deadline.

(* ================================================================== *)
(** * The tables and the two views that write to them
      ([users/views.py])                                               *)
(* ================================================================== *)

(** [BloodRequestResponse]; the two foreign keys hold primary keys. *)
Record BloodRequestResponse := mkResponse {
  blood_request : Z;
  donor : Z;
  response : string;
  message : string;
  donor_phone : string;
  preferred_contact_time : string;
  responded_at : datetime
}.

(** [UserProfile], one per user. *)
Record UserProfile := mkProfile {
  profile_user : Z;
  total_donations : Z;
  total_requests_fulfilled : Z;
  receive_email_notifications : bool;
  privacy_level : string;
  profile_created_at : datetime;
  profile_updated_at : datetime
}.

Record Database := mkDatabase {
  users : list User;
  blood_requests : list BloodRequest;
  responses : list BloodRequestResponse;
  profiles : list UserProfile
}.

Definition with_responses (db : Database) (t : list BloodRequestResponse)
    : Database :=
  mkDatabase (users db) (blood_requests db) t (profiles db).

(** ** Responding to a request *)

(** The key of [Meta.unique_together = ['blood_request', 'donor']]. *)
Definition response_key (r : BloodRequestResponse) : Z * Z :=
  (blood_request r, donor r).

Definition has_key (req_id donor_id : Z) (r : BloodRequestResponse) : bool :=
  (blood_request r =? req_id) && (donor r =? donor_id).

(** [BloodRequestResponse.objects.filter(blood_request=.., donor=..).exists()] *)
Definition response_exists (table : list BloodRequestResponse)
    (req_id donor_id : Z) : bool :=
  existsb (has_key req_id donor_id) table.

(** An [INSERT] into the response table: the database rejects a row whose
    (blood_request, donor) pair is already present. *)
Definition insert_response (table : list BloodRequestResponse)
    (row : BloodRequestResponse) : result (list BloodRequestResponse) :=
  if response_exists table (blood_request row) (donor row)
  then Raise IntegrityError
  else Ret (row :: table).

Inductive http_method := GET | POST.

(** A Python [str] is held as the bytes of its UTF-8 encoding.  [len(s)]
    counts code points: the bytes that are not continuation bytes
    ([10xxxxxx]). *)
Definition is_continuation_byte (a : Ascii.ascii) : bool :=
  let n := Z.of_nat (Ascii.nat_of_ascii a) in (128 <=? n) && (n <? 192).

Fixpoint code_points (s : string) : Z :=
  match s with
  | EmptyString => 0
  | String a rest =>
      (if is_continuation_byte a then 0 else 1) + code_points rest
  end.

(** ['\x00' in s] *)
Fixpoint has_null_character (s : string) : bool :=
  match s with
  | EmptyString => false
  | String a rest =>
      (Z.of_nat (Ascii.nat_of_ascii a) =? 0) || has_null_character rest
  end.

(** The fields of [BloodRequestResponseForm] as the form fields hand them
    to validation, that is, the posted values after each field's
    [to_python]: [response] as posted, the three text fields with the
    surrounding whitespace stripped by Django's [CharField].  These are
    the values that validation judges and that a valid form stores. *)
Record ResponseForm := mkResponseForm {
  form_response : string;
  form_message : string;
  form_donor_phone : string;
  form_preferred_contact_time : string
}.

(** Field validation of the model form: [response] is required and one of
    [RESPONSE_CHOICES]; the two [CharField]s respect [max_length], counted
    in characters; no text field holds a null character.  The form has
    neither [blood_request] nor [donor], so its uniqueness check does not
    cover the pair. *)
Definition form_is_valid (f : ResponseForm) : bool :=
  ((form_response f =? "ACCEPTED")%string ||
   (form_response f =? "DECLINED")%string ||
   (form_response f =? "COMPLETED")%string) &&
  (code_points (form_donor_phone f) <=? 15) &&
  (code_points (form_preferred_contact_time f) <=? 100) &&
  negb (has_null_character (form_message f)) &&
  negb (has_null_character (form_donor_phone f)) &&
  negb (has_null_character (form_preferred_contact_time f)).

Inductive http_response :=
| NotFound
| RedirectToDetail (pk : Z) (flash : string)
| RenderForm
| ServerError (e : exn).

(** [get_object_or_404(BloodRequest, pk=pk)] *)
Definition get_blood_request (db : Database) (pk : Z) : option BloodRequest :=
  find (fun r => request_id r =? pk) (blood_requests db).

(** [BloodRequestResponseCreateView]: [dispatch], then for a [POST] the
    form validation, [form_valid] and the save of the new row. *)
Definition respond_view (db : Database) (now : datetime) (user : principal)
    (method : http_method) (form : ResponseForm) (pk : Z)
    : Database * http_response :=
  match get_blood_request db pk with
  | None => (db, NotFound)
  | Some req =>
      match can_accept req (Some user) now with
      | Raise e => (db, ServerError e)
      | Ret ok =>
          if negb (truthy ok)
          then (db, RedirectToDetail (request_id req)
                      "You cannot respond to this blood request.")
          else
            match user with
            | AnonymousUser => (db, ServerError TypeError)
            | LoggedIn u =>
                if response_exists (responses db) (request_id req) (id u)
                then (db, RedirectToDetail (request_id req)
                            "You have already responded to this request.")
                else
                  match method with
                  | GET => (db, RenderForm)
                  | POST =>
                      if form_is_valid form
                      then
                        let row :=
                          mkResponse (request_id req) (id u)
                            (form_response form) (form_message form)
                            (form_donor_phone form)
                            (form_preferred_contact_time form) now in
                        match insert_response (responses db) row with
                        | Raise e => (db, ServerError e)
                        | Ret t =>
                            (with_responses db t,
                             RedirectToDetail (request_id req)
                               "Your response has been sent to the requester!")
                        end
                      else (db, RenderForm)
                  end
            end
      end
  end.

(** One step of the system as far as the response table is concerned: the
    view above; a row written through the ORM elsewhere (the admin site),
    which the database accepts only under the unique constraint; rows
    deleted (directly or by cascade); and any change to the other tables.
    An update of a row's key is a deletion followed by an insertion. *)
Inductive step : Database -> Database -> Prop :=
| step_respond db now user method form pk :
    step db (fst (respond_view db now user method form pk))
| step_insert db row t :
    insert_response (responses db) row = Ret t ->
    step db (with_responses db t)
| step_delete db keep :
    step db (with_responses db (filter keep (responses db)))
| step_other db us rs ps :
    step db (mkDatabase us rs (responses db) ps).

(** The states the system can be in, starting with an empty response table. *)
Inductive reachable : Database -> Prop :=
| reachable_init db : responses db = [] -> reachable db
| reachable_step db db' : reachable db -> step db db' -> reachable db'.

(** At most one response per (request, donor) pair. *)
Definition unique_responses (db : Database) : Prop :=
  NoDup (map response_key (responses db)).

(** ** Verifying an e-mail address *)

(** [User.objects.get(email_verification_token=token)] *)
Definition get_user_by_token (table : list User) (token : Z) : result User :=
  match filter (fun u => email_verification_token u =? token) table with
  | [] => Raise DoesNotExist
  | [u] => Ret u
  | _ :: _ :: _ => Raise MultipleObjectsReturned
  end.

Definition set_is_email_verified (u : User) (b : bool) : User :=
  mkUser (id u) (email u) (full_name u) (date_of_birth u) (blood_group u)
    (weight u) (last_donation_date u) b (is_donor u) (is_recipient u)
    (is_available_for_donation u) (email_verification_token u) (updated_at u).

Definition set_updated_at (u : User) (t : datetime) : User :=
  mkUser (id u) (email u) (full_name u) (date_of_birth u) (blood_group u)
    (weight u) (last_donation_date u) (is_email_verified u) (is_donor u)
    (is_recipient u) (is_available_for_donation u)
    (email_verification_token u) t.

Definition touch_profile (p : UserProfile) (t : datetime) : UserProfile :=
  mkProfile (profile_user p) (total_donations p) (total_requests_fulfilled p)
    (receive_email_notifications p) (privacy_level p) (profile_created_at p) t.

(** The [post_save] receivers of [User] for a row that already existed:
    [create_user_profile] does nothing; [save_user_profile] saves the
    profile of the user (refreshing its [auto_now] column) or creates one
    with the column defaults. *)
Definition save_user_profile (table : list UserProfile) (u : User)
    (now : datetime) : list UserProfile :=
  if existsb (fun p => profile_user p =? id u) table
  then map (fun p => if profile_user p =? id u then touch_profile p now else p)
           table
  else mkProfile (id u) 0 0 true "PUBLIC" now now :: table.

(** [user.save()] on a fetched row: an [UPDATE] of the row with that
    primary key, [updated_at] being [auto_now], followed by the
    [post_save] receivers. *)
Definition save_user (db : Database) (u : User) (now : datetime) : Database :=
  let u' := set_updated_at u now in
  mkDatabase
    (map (fun r => if id r =? id u then u' else r) (users db))
    (blood_requests db)
    (responses db)
    (save_user_profile (profiles db) u' now).

(** [EmailVerificationView.get]: the new state and either the flash
    message shown or the exception that escapes the view. *)
Definition email_verification_view (db : Database) (token : Z)
    (now : datetime) : Database * result string :=
  match get_user_by_token (users db) token with
  | Ret user =>
      if negb (is_email_verified user)
      then (save_user db (set_is_email_verified user true) now,
            Ret "Email verified successfully! You can now log in.")
      else (db, Ret "Email already verified.")
  | Raise DoesNotExist => (db, Ret "Invalid verification token.")
  | Raise e => (db, Raise e)
  end.

(* ================================================================== *)
(** * Form validation ([users/forms.py])                               *)
(* ================================================================== *)

(** What a [clean_<field>] method makes of a value: the cleaned value,
    a [ValidationError] with its message, or an exception of another kind
    escaping the method. *)
Inductive cleaned (A : Type) :=
| Valid (a : A)
| Invalid (error : string)
| Crashed (e : exn).
Arguments Valid {A} a.
Arguments Invalid {A} error.
Arguments Crashed {A} e.

(** [if test: raise ValidationError(error)], then the rest of the method. *)
Definition raise_if {A} (test : result value) (error : string)
    (rest : cleaned A) : cleaned A :=
  match test with
  | Raise e => Crashed e
  | Ret v => if truthy v then Invalid error else rest
  end.

(** [a < b] *)
Definition lt (a b : value) : result value := gt b a.

(** [User.BLOOD_GROUP_CHOICES], [BloodRequest.URGENCY_CHOICES]: the stored
    values. *)
Definition BLOOD_GROUP_CHOICES : list string :=
  ["A+"; "A-"; "B+"; "B-"; "AB+"; "AB-"; "O+"; "O-"].

Definition URGENCY_CHOICES : list string := ["LOW"; "MEDIUM"; "HIGH"; "CRITICAL"].

(** Membership in a list of choices. *)
Definition is_choice (choices : list string) (s : string) : bool :=
  existsb (String.eqb s) choices.

(** [UserRegistrationForm.clean_date_of_birth]; [today] is [date.today()]. *)
Definition clean_date_of_birth (dob : option date) (today : date)
    : cleaned (option date) :=
  if truthy (of_date dob)
  then
    match '(y, m, d) <- attr_ymd (of_date dob) ;;
          Ret (VInt (year today - y -
                     Z.b2z (pair_lt (month today, day today) (m, d)))) with
    | Raise e => Crashed e
    | Ret age =>
        raise_if (lt age (VInt 16))
          "You must be at least 16 years old to register."
          (raise_if (gt age (VInt 65)) "Age must be realistic." (Valid dob))
    end
  else Valid dob.

(** [s.replace(c, '')] for a one-character [c]. *)
Fixpoint remove_char (c : Ascii.ascii) (s : string) : string :=
  match s with
  | EmptyString => EmptyString
  | String a rest =>
      if Ascii.eqb a c then remove_char c rest
      else String a (remove_char c rest)
  end.

Definition is_ascii_digit (a : Ascii.ascii) : bool :=
  let n := Z.of_nat (Ascii.nat_of_ascii a) in (48 <=? n) && (n <=? 57).

Fixpoint all_chars (p : Ascii.ascii -> bool) (s : string) : bool :=
  match s with
  | EmptyString => true
  | String a rest => p a && all_chars p rest
  end.

(** [s.isdigit()] for a string of ASCII characters: non-empty and made of
    the digits 0 to 9.  (Python also counts the digits of other scripts;
    those lie outside ASCII.) *)
Definition isdigit (s : string) : bool :=
  negb (s =? "")%string && all_chars is_ascii_digit s.

(** The string holds ASCII characters only. *)
Definition is_ascii (s : string) : bool :=
  all_chars (fun a => Z.of_nat (Ascii.nat_of_ascii a) <? 128) s.

(** [UserRegistrationForm.clean_phone_number] *)
Definition clean_phone_number (phone : string) : cleaned string :=
  if negb (phone =? "")%string &&
     negb (isdigit (remove_char " "%char
                       (remove_char "-"%char (remove_char "+"%char phone))))
  then Invalid "Please enter a valid phone number."
  else Valid phone.

(** [BloodRequestForm.clean_needed_by_date]; [now] is [timezone.now()]. *)
Definition clean_needed_by_date (needed_by : option datetime) (now : datetime)
    : cleaned (option datetime) :=
  raise_if
    (Ret (of_datetime needed_by) and'
     le (of_datetime needed_by) (VDateTime now))
    "The needed by date must be in the future."
    (Valid needed_by).

(** [UserProfileForm.clean_last_donation_date]; [today] is [date.today()]. *)
Definition clean_last_donation_date (last_donation : option date)
    (today : date) : cleaned (option date) :=
  raise_if
    (Ret (of_date last_donation) and' gt (of_date last_donation) (VDate today))
    "Last donation date cannot be in the future."
    (Valid last_donation).

(** [User.objects.filter(email=email).exists()] *)
Definition email_exists (table : list User) (address : string) : bool :=
  existsb (fun u => (email u =? address)%string) table.

(** [UserRegistrationForm.clean_email] *)
Definition clean_email (table : list User) (address : string)
    : cleaned string :=
  if email_exists table address
  then Invalid "A user with this email already exists."
  else Valid address.


(** [a <= b] for two dates, as Python compares them: by year, then month,
    then day. *)
Definition date_le (a b : date) : bool :=
  (year a <? year b) ||
  ((year a =? year b) &&
   ((month a <? month b) || ((month a =? month b) && (day a <=? day b)))).

(** The [k]-th anniversary of a date, as a year-month-day triple (for
    29 February it need not be a date of the calendar). *)
Definition anniversary (k : Z) (d : date) : date :=
  mkDate (year d + k) (month d) (day d).

(** The characters a phone number may be made of, and the presence of a
    digit among them. *)
Definition is_phone_char (a : Ascii.ascii) : bool :=
  is_ascii_digit a || Ascii.eqb a "+" || Ascii.eqb a "-" || Ascii.eqb a " ".

Definition has_digit (s : string) : bool :=
  negb (all_chars (fun a => negb (is_ascii_digit a)) s).

(** The phone number once ['+'], ['-'] and [' '] are taken out. *)
Definition strip_phone (phone : string) : string :=
  remove_char " "%char (remove_char "-"%char (remove_char "+"%char phone)).

(* ================================================================== *)
(** * The remaining views ([users/views.py])                           *)
(* ================================================================== *)

(** ** Registration *)

(** The posted fields of [UserRegistrationForm] that end up in the columns
    modelled here, already converted by their form fields ([to_python]:
    text stripped of surrounding whitespace, date and number parsed).
    [reg_rest_valid] stands for the outcome of validating what is left:
    the syntax of the e-mail address, the names (with
    [clean_first_name]), gender, city, the two passwords and the accepted
    terms. *)
Record RegistrationForm := mkRegistrationForm {
  reg_email : string;
  reg_phone_number : string;
  reg_date_of_birth : option date;
  reg_blood_group : string;
  reg_weight : option pyfloat;
  reg_rest_valid : bool
}.

Definition is_valid_value {A} (c : cleaned A) : bool :=
  match c with
  | Valid _ => true
  | _ => false
  end.

(** [weight = forms.FloatField(required=False, min_value=30,
    max_value=200)]: empty, or a finite number within the bounds. *)
Definition weight_field_valid (w : option pyfloat) : bool :=
  match w with
  | None => true
  | Some (FFinite q) => Qle_bool (inject_Z 30) q && Qle_bool q (inject_Z 200)
  | Some _ => false
  end.

(** [form.is_valid()] for the registration form: each field is required
    unless declared otherwise, must satisfy its declaration (for the phone
    number [max_length=15]), and then its [clean_<field>] method. *)
Definition registration_form_is_valid (table : list User)
    (f : RegistrationForm) (today : date) : bool :=
  negb (reg_email f =? "")%string &&
  is_valid_value (clean_email table (reg_email f)) &&
  negb (reg_phone_number f =? "")%string &&
  (code_points (reg_phone_number f) <=? 15) &&
  negb (has_null_character (reg_phone_number f)) &&
  is_valid_value (clean_phone_number (reg_phone_number f)) &&
  match reg_date_of_birth f with
  | Some _ => is_valid_value (clean_date_of_birth (reg_date_of_birth f) today)
  | None => false
  end &&
  is_choice BLOOD_GROUP_CHOICES (reg_blood_group f) &&
  weight_field_valid (reg_weight f) &&
  reg_rest_valid f.

(** The row [UserRegistrationView.form_valid] builds: the form's values,
    the column defaults for what the form does not set, the flag and the
    token set by the view.  [pk] is the primary key the database assigns
    and [token] the value drawn by [uuid.uuid4()]. *)
Definition new_user (f : RegistrationForm) (pk token : Z) (now : datetime)
    : User :=
  mkUser pk (reg_email f) "" (reg_date_of_birth f) (reg_blood_group f)
    (reg_weight f) None false true true true token now.

(** The [post_save] receivers for a row that was just created:
    [create_user_profile] creates the profile, which [save_user_profile]
    then finds and saves. *)
Definition create_user_profile (table : list UserProfile) (u : User)
    (now : datetime) : list UserProfile :=
  save_user_profile (mkProfile (id u) 0 0 true "PUBLIC" now now :: table) u now.

(** The first [user.save()] of a new row: the [INSERT] and the receivers.
    (The unique constraint on [email] cannot fire: [clean_email] has just
    found the address free.) *)
Definition insert_user (db : Database) (u : User) (now : datetime) : Database :=
  mkDatabase (u :: users db) (blood_requests db) (responses db)
    (create_user_profile (profiles db) u now).

Inductive registration_outcome :=
| RegistrationFormErrors
| RegistrationSuccess (verification_link_token : Z).

(** [UserRegistrationView] on a [POST]: when the form is valid,
    [form_valid] saves the new, unverified user and sends the link; the
    inherited [form_valid] then saves the same instance once more. *)
Definition register_view (db : Database) (f : RegistrationForm)
    (today : date) (now : datetime) (pk token : Z)
    : Database * registration_outcome :=
  if registration_form_is_valid (users db) f today
  then
    let user := new_user f pk token now in
    (save_user (insert_user db user now) user now,
     RegistrationSuccess (email_verification_token user))
  else (db, RegistrationFormErrors).

(** ** Availability switch *)

Definition set_is_available_for_donation (u : User) (b : bool) : User :=
  mkUser (id u) (email u) (full_name u) (date_of_birth u) (blood_group u)
    (weight u) (last_donation_date u) (is_email_verified u) (is_donor u)
    (is_recipient u) b (email_verification_token u) (updated_at u).

Inductive ajax_response :=
| LoginRequired
| Json (success : bool) (new_status : option bool).

(** [update_donation_status] behind [@login_required]; [posted] is
    [request.POST.get('status')]. *)
Definition update_donation_status (db : Database) (user : principal)
    (method : http_method) (posted : option string) (now : datetime)
    : Database * ajax_response :=
  match user with
  | AnonymousUser => (db, LoginRequired)
  | LoggedIn u =>
      match method with
      | POST =>
          let status :=
            match posted with
            | Some s => (s =? "true")%string
            | None => false
            end in
          (save_user db (set_is_available_for_donation u status) now,
           Json true (Some status))
      | GET => (db, Json false None)
      end
  end.

(** ** Requests of one's own *)

(** [BloodRequestUpdateView.get_queryset] and
    [BloodRequestDeleteView.get_queryset]:
    [BloodRequest.objects.filter(requester=self.request.user)]. *)
Definition own_requests (db : Database) (u : User) : list BloodRequest :=
  filter (fun r => id (requester r) =? id u) (blood_requests db).

(** [get_object()] on that queryset. *)
Definition get_own_request (db : Database) (u : User) (pk : Z)
    : option BloodRequest :=
  find (fun r => request_id r =? pk) (own_requests db u).

Inductive page :=
| LoginPage
| PageNotFound
| FormPage
| ConfirmationPage
| RedirectToDashboard
| RedirectToRequest (pk : Z).

(** Deleting the request with primary key [pk]; the responses to it go
    with it ([on_delete=models.CASCADE]). *)
Definition delete_request (db : Database) (pk : Z) : Database :=
  mkDatabase (users db)
    (filter (fun r => negb (request_id r =? pk)) (blood_requests db))
    (filter (fun x => negb (blood_request x =? pk)) (responses db))
    (profiles db).

(** [BloodRequestDeleteView]: login required, the object looked up among
    the user's own requests, a confirmation page on [GET], the deletion
    on [POST]. *)
Definition delete_request_view (db : Database) (user : principal)
    (method : http_method) (pk : Z) : Database * page :=
  match user with
  | AnonymousUser => (db, LoginPage)
  | LoggedIn u =>
      match get_own_request db u pk with
      | None => (db, PageNotFound)
      | Some req =>
          match method with
          | GET => (db, ConfirmationPage)
          | POST => (delete_request db (request_id req), RedirectToDashboard)
          end
      end
  end.

(** The posted fields of [BloodRequestForm] kept in the columns modelled
    here; [brf_rest_valid] stands for the validation of the others
    (patient name, units, hospital, description, contact phone). *)
Record BloodRequestFormData := mkBloodRequestFormData {
  brf_patient_name : string;
  brf_blood_group_needed : string;
  brf_units_needed : Z;
  brf_urgency : string;
  brf_needed_by_date : option datetime;
  brf_is_public : bool;
  brf_rest_valid : bool
}.

Definition blood_request_form_is_valid (f : BloodRequestFormData)
    (now : datetime) : bool :=
  is_choice BLOOD_GROUP_CHOICES (brf_blood_group_needed f) &&
  is_choice URGENCY_CHOICES (brf_urgency f) &&
  match brf_needed_by_date f with
  | Some _ => is_valid_value (clean_needed_by_date (brf_needed_by_date f) now)
  | None => false
  end &&
  brf_rest_valid f.

(** [BloodRequestCreateView] on a [POST]: the requester is the logged-in
    user, [status] takes its default, and the new row (primary key [pk],
    assigned by the database) is the newest of the table. *)
Definition create_request_view (db : Database) (user : principal)
    (f : BloodRequestFormData) (now : datetime) (pk : Z) : Database * page :=
  match user with
  | AnonymousUser => (db, LoginPage)
  | LoggedIn u =>
      if blood_request_form_is_valid f now
      then
        let req :=
          mkBloodRequest pk u (brf_patient_name f) (brf_blood_group_needed f)
            (brf_units_needed f) (brf_urgency f) (brf_needed_by_date f)
            "ACTIVE" (brf_is_public f) in
        (mkDatabase (users db) (req :: blood_requests db) (responses db)
           (profiles db),
         RedirectToRequest pk)
      else (db, FormPage)
  end.

(** The profiles of the user with primary key [uid]. *)
Definition profiles_of (uid : Z) (table : list UserProfile) : list UserProfile :=
  filter (fun p => profile_user p =? uid) table.

(** The case in which the response view stores a response: a [POST] with
    a valid form from a logged-in user [u] for the request [req] found
    under the key [pk], [u] not being the requester, being an eligible
    donor with the needed blood group and without an earlier response,
    and [req] being ['ACTIVE'] and not expired. *)
Definition respond_allowed (db : Database) (now : datetime) (user : principal)
    (method : http_method) (form : ResponseForm) (pk : Z)
    (req : BloodRequest) (u : User) : Prop :=
  get_blood_request db pk = Some req /\
  user = LoggedIn u /\
  method = POST /\
  form_is_valid form = true /\
  id u <> id (requester req) /\
  returns_truthy (is_eligible_donor u (dt_date now)) /\
  blood_group u = blood_group_needed req /\
  status req = "ACTIVE" /\
  is_expired req now = Ret (VBool false) /\
  response_exists (responses db) (request_id req) (id u) = false.

(** Every response belongs to a request of the table. *)
Definition responses_attached (db : Database) : Prop :=
  forall x, In x (responses db) ->
            exists r, In r (blood_requests db) /\ request_id r = blood_request x.

(** ** Looking for donors and for requests *)

Section DonorSearch.

(** [address__icontains=location]: whether the user's address (a column
    not modelled here) contains [location], as the database decides
    without regard to case. *)
Variable address_icontains : User -> string -> bool.

(** A [GET] parameter that is absent or empty does not filter. *)
Definition given (parameter : option string) : option string :=
  match parameter with
  | Some s => if (s =? "")%string then None else Some s
  | None => None
  end.

(** [DonorSearchView.get_queryset].  The view asks for a random order
    ([order_by('?')]); the rows are given here in table order, and only
    membership means anything. *)
Definition donor_search (table : list User) (blood_group_wanted : option string)
    (location : option string) : list User :=
  let queryset :=
    filter (fun u => Bool.eqb (is_email_verified u) true &&
                     Bool.eqb (is_donor u) true &&
                     Bool.eqb (is_available_for_donation u) true) table in
  let queryset :=
    match given blood_group_wanted with
    | Some g => filter (fun u => (blood_group u =? g)%string) queryset
    | None => queryset
    end in
  match given location with
  | Some l => filter (fun u => address_icontains u l) queryset
  | None => queryset
  end.

End DonorSearch.

(** [context['available_requests']] of [DashboardView.get_context_data].
    The request table is kept newest first, the order ['-created_at'] asks
    for. *)
Definition available_requests (db : Database) (user : User)
    : list BloodRequest :=
  firstn 5
    (filter (fun r => (blood_group_needed r =? blood_group user)%string)
       (filter (fun r => negb (id (requester r) =? id user))
          (filter (fun r => (status r =? "ACTIVE")%string &&
                            Bool.eqb (is_public r) true)
             (blood_requests db)))).

(** ** Logging in *)

(** [s.lower()] for a string of ASCII characters: the capitals A to Z
    become small letters, everything else stays. *)
Definition lower_char (a : Ascii.ascii) : Ascii.ascii :=
  let n := Ascii.nat_of_ascii a in
  if (65 <=? Z.of_nat n) && (Z.of_nat n <=? 90)
  then Ascii.ascii_of_nat (n + 32)
  else a.

Fixpoint lower (s : string) : string :=
  match s with
  | EmptyString => EmptyString
  | String a rest => String (lower_char a) (lower rest)
  end.

(** The ASCII characters for which [isspace()] holds: tab to carriage
    return, the four separators 28 to 31, and the space. *)
Definition is_ascii_space (a : Ascii.ascii) : bool :=
  let n := Z.of_nat (Ascii.nat_of_ascii a) in
  ((9 <=? n) && (n <=? 13)) || ((28 <=? n) && (n <=? 32)).

(** [s.lstrip()], [s.rstrip()] and [s.strip()] for a string of ASCII
    characters. *)
Fixpoint lstrip (s : string) : string :=
  match s with
  | EmptyString => EmptyString
  | String a rest => if is_ascii_space a then lstrip rest else s
  end.

Fixpoint rstrip (s : string) : string :=
  match s with
  | EmptyString => EmptyString
  | String a rest =>
      match rstrip rest with
      | EmptyString => if is_ascii_space a then EmptyString
                       else String a EmptyString
      | kept => String a kept
      end
  end.

Definition strip (s : string) : string := rstrip (lstrip s).

(** [UserLoginForm.clean_email] *)
Definition login_clean_email (address : string) : string :=
  if truthy (VStr address) then strip (lower address) else address.

Section Login.

(** Two things Django's [AbstractUser] keeps that are not columns of the
    rows modelled here: the [is_active] flag and the password, through
    [user.check_password(raw_password)]; and the syntax check of
    [forms.EmailField]. *)
Variable is_active : User -> bool.
Variable check_password : User -> string -> bool.
Variable valid_address : string -> bool.

(** [User.objects.get(email=email)] *)
Definition get_user_by_email (table : list User) (address : string)
    : result User :=
  match filter (fun u => (email u =? address)%string) table with
  | [] => Raise DoesNotExist
  | [u] => Ret u
  | _ :: _ :: _ => Raise MultipleObjectsReturned
  end.

(** [django.contrib.auth.authenticate(username=.., password=..)] with the
    model backend; [USERNAME_FIELD] is ['email']. *)
Definition authenticate (table : list User) (username password : string)
    : result (option User) :=
  match get_user_by_email table username with
  | Ret u =>
      Ret (if check_password u password && is_active u then Some u else None)
  | Raise DoesNotExist => Ret None
  | Raise e => Raise e
  end.

(** [UserLoginForm.clean]; [address] is [cleaned_data['email']], the value
    [clean_email] returned. *)
Definition login_form_clean (table : list User) (address password : string)
    : cleaned unit :=
  if negb (address =? "")%string && negb (password =? "")%string
  then
    match get_user_by_email table address with
    | Ret user =>
        if negb (is_active user)
        then Invalid "This account is inactive."
        else if negb (is_email_verified user)
        then Invalid "Please verify your email address before logging in."
        else
          match authenticate table address password with
          | Ret (Some _) => Valid tt
          | Ret None => Invalid "Invalid email or password."
          | Raise e => Crashed e
          end
    | Raise DoesNotExist => Invalid "Invalid email or password."
    | Raise e => Crashed e
    end
  else Valid tt.

Inductive login_outcome :=
| AlreadyLoggedIn
| LoginFormErrors (error : string)
| LoggedInAs (u : User) (session_expiry : Z)
| LoginCrashed (e : exn).

(** [UserLoginView] on a [POST]: [dispatch]; the form, whose two fields
    are required and whose address must look like one and then goes
    through [clean_email]; then [form_valid], which reads the address from
    [cleaned_data].  [address] and [password] are the posted values as the
    form fields deliver them (stripped of surrounding whitespace). *)
Definition login_view (table : list User) (current : principal)
    (address password : string) (remember_me : bool) : login_outcome :=
  match current with
  | LoggedIn _ => AlreadyLoggedIn
  | AnonymousUser =>
      if (address =? "")%string || (password =? "")%string
      then LoginFormErrors "This field is required."
      else if negb (valid_address address)
      then LoginFormErrors "Enter a valid email address."
      else
        let email := login_clean_email address in
        match login_form_clean table email password with
        | Invalid error => LoginFormErrors error
        | Crashed e => LoginCrashed e
        | Valid _ =>
            match authenticate table email password with
            | Raise e => LoginCrashed e
            | Ret None => LoginFormErrors "Invalid email or password."
            | Ret (Some user) =>
                if is_email_verified user
                then LoggedInAs user (if remember_me then 1209600 else 0)
                else LoginFormErrors
                       "Please verify your email address before logging in."
            end
        end
  end.

End Login.

(** The requests the dashboard chooses from, before it keeps five. *)
Definition matching_requests (db : Database) (user : User) : list BloodRequest :=
  filter (fun r => (blood_group_needed r =? blood_group user)%string)
    (filter (fun r => negb (id (requester r) =? id user))
       (filter (fun r => (status r =? "ACTIVE")%string &&
                         Bool.eqb (is_public r) true)
          (blood_requests db))).

(* ================================================================== *)
(** * The admin site ([users/admin.py])                                *)
(* ================================================================== *)

(** [f"{age}"] for the values [get_age] returns when they are true ones:
    integers, written in decimal. *)
Definition format_int (v : value) : result string :=
  match v with
  | VInt z => Ret (NilZero.string_of_int (Z.to_int z))
  | _ => Raise TypeError
  end.

(** [UserAdmin.get_age_display] *)
Definition get_age_display (obj : User) (today : date) : result string :=
  age <- get_age obj today ;;
  if truthy age
  then (digits <- format_int age ;; Ret (digits ++ " years"))
  else Ret "Not provided".

(* ================================================================== *)
(** * Editing a request, and the site as a whole                       *)
(* ================================================================== *)

(** What saving a valid [BloodRequestForm] does to an existing request:
    the form's fields are overwritten; key, requester and status are not
    fields of the form. *)
Definition apply_request_form (req : BloodRequest) (f : BloodRequestFormData)
    : BloodRequest :=
  mkBloodRequest (request_id req) (requester req) (brf_patient_name f)
    (brf_blood_group_needed f) (brf_units_needed f) (brf_urgency f)
    (brf_needed_by_date f) (status req) (brf_is_public f).

(** [BloodRequestUpdateView]: login required, the object looked up among
    the user's own requests, the form on [GET], the update on a valid
    [POST]. *)
Definition update_request_view (db : Database) (user : principal)
    (method : http_method) (f : BloodRequestFormData) (now : datetime)
    (pk : Z) : Database * page :=
  match user with
  | AnonymousUser => (db, LoginPage)
  | LoggedIn u =>
      match get_own_request db u pk with
      | None => (db, PageNotFound)
      | Some req =>
          match method with
          | GET => (db, FormPage)
          | POST =>
              if blood_request_form_is_valid f now
              then
                (mkDatabase (users db)
                   (map (fun r => if request_id r =? request_id req
                                  then apply_request_form req f else r)
                      (blood_requests db))
                   (responses db) (profiles db),
                 RedirectToRequest (request_id req))
              else (db, FormPage)
          end
      end
  end.

(** A logged-in user is a row of the user table (the session middleware
    loads [request.user] from it). *)
Definition known (db : Database) (user : principal) : Prop :=
  match user with
  | AnonymousUser => True
  | LoggedIn u => In u (users db)
  end.

(** One request served by one of the views that write.  The database
    hands out primary keys that are not in use. *)
Inductive served : Database -> Database -> Prop :=
| served_register db f today now pk token :
    ~ In pk (map id (users db)) ->
    served db (fst (register_view db f today now pk token))
| served_verify db token now :
    served db (fst (email_verification_view db token now))
| served_availability db user method posted now :
    known db user ->
    served db (fst (update_donation_status db user method posted now))
| served_create db user f now pk :
    known db user ->
    ~ In pk (map request_id (blood_requests db)) ->
    served db (fst (create_request_view db user f now pk))
| served_update db user method f now pk :
    known db user ->
    served db (fst (update_request_view db user method f now pk))
| served_delete db user method pk :
    known db user ->
    served db (fst (delete_request_view db user method pk))
| served_respond db now user method form pk :
    known db user ->
    served db (fst (respond_view db now user method form pk)).

(** The states the site reaches from an empty database through its views. *)
Inductive site_state : Database -> Prop :=
| site_empty : site_state (mkDatabase [] [] [] [])
| site_served db db' : site_state db -> served db db' -> site_state db'.

(** No donor has responded to a request of his or her own, and every
    response is for a request of the table. *)
Definition responses_from_others (db : Database) : Prop :=
  forall x, In x (responses db) ->
    exists r, In r (blood_requests db) /\ request_id r = blood_request x /\
              id (requester r) <> donor x.

(** What holds of the tables whatever the views have been asked to do. *)
Definition consistent (db : Database) : Prop :=
  NoDup (map id (users db)) /\
  NoDup (map email (users db)) /\
  NoDup (map request_id (blood_requests db)) /\
  (forall r, In r (blood_requests db) -> status r = "ACTIVE") /\
  unique_responses db /\
  responses_from_others db.
(* ================================================================== *)
(** * Sample data                                                      *)
(* ================================================================== *)

Module Samples.

(** Noon on 15 June 2024, and the same time the next day. *)
Definition noon : datetime := mkDateTime (mkDate 2024 6 15) 43200000000.
Definition next_noon : datetime := mkDateTime (mkDate 2024 6 16) 43200000000.
Definition new_year : datetime := mkDateTime (mkDate 2024 1 1) 0.

Definition sixty_kg : option pyfloat := Some (FFinite (inject_Z 60)).

(** Alice posts the request; she is thirty and otherwise a model donor. *)
Definition alice : User :=
  mkUser 1 "alice@example.org" "Alice" (Some (mkDate 1994 5 20)) "O+"
    sixty_kg None true true true true 1001 new_year.

(** Bob: thirty, 60 kg, O+, never donated. *)
Definition bob : User :=
  mkUser 2 "bob@example.org" "Bob" (Some (mkDate 1994 1 10)) "O+"
    sixty_kg None true true true true 1002 new_year.

(** Carol: like Bob, but she gave blood ten days ago. *)
Definition carol : User :=
  mkUser 3 "carol@example.org" "Carol" (Some (mkDate 1993 12 1)) "O+"
    sixty_kg (Some (mkDate 2024 6 5)) true true true true 1003 new_year.

(** Dave: like Bob, but he has switched the donor flag off. *)
Definition dave : User :=
  mkUser 4 "dave@example.org" "Dave" (Some (mkDate 1993 8 30)) "O+"
    sixty_kg None true false true true 1004 new_year.

(** Erin never filled in her date of birth or weight. *)
Definition erin : User :=
  mkUser 5 "erin@example.org" "Erin" None "O+"
    None None true true true true 1005 new_year.

(** Frank registered but has not followed the verification link yet. *)
Definition frank : User :=
  mkUser 6 "frank@example.org" "Frank" (Some (mkDate 1990 2 2)) "A-"
    None None false true true true 1006 new_year.

(** Grace weighs 45 kg. *)
Definition grace : User :=
  mkUser 7 "grace@example.org" "Grace" (Some (mkDate 1990 2 2)) "O+"
    (Some (FFinite (inject_Z 45))) None true true true true 1007 new_year.

(** Heidi gave blood on 17 March 2024, ninety days before 15 June. *)
Definition heidi : User :=
  mkUser 8 "heidi@example.org" "Heidi" (Some (mkDate 1985 7 7)) "B+"
    sixty_kg (Some (mkDate 2024 3 17)) true true true true 1008 new_year.

Definition request : BloodRequest :=
  mkBloodRequest 10 alice "A. Patient" "O+" 2 "HIGH" (Some next_noon)
    "ACTIVE" true.

Definition open_ended_request : BloodRequest :=
  mkBloodRequest 11 alice "A. Patient" "O+" 1 "LOW" None "ACTIVE" true.

Definition everyone : list User :=
  [alice; bob; carol; dave; erin; frank; grace; heidi].

(** A database holding the sample request and no response yet. *)
Definition database : Database := mkDatabase everyone [request] [] [].

Definition accept_form : ResponseForm :=
  mkResponseForm "ACCEPTED" "On my way" "0123456789" "any time".

End Samples.

(** Further sample data for the forms and the remaining views. *)
Module Scenarios.

(** Ivan is seventeen on 15 June 2024 and has just registered. *)
Definition ivan : User :=
  mkUser 9 "ivan@example.org" "" (Some (mkDate 2007 6 1)) "O+"
    Samples.sixty_kg None false true true true 1009 Samples.noon.

(** What Ivan posted to register: seventeen years old, 45 kg. *)
Definition ivan_form : RegistrationForm :=
  mkRegistrationForm "ivan@example.org" "+8801711000000"
    (Some (mkDate 2007 6 1)) "O+" (Some (FFinite (inject_Z 45))) true.

(** Alice asks for two units of O+ by noon the next day. *)
Definition alice_form : BloodRequestFormData :=
  mkBloodRequestFormData "A. Patient" "O+" 2 "HIGH" (Some Samples.next_noon)
    true true.

(** The users alone, before any request is posted. *)
Definition users_only : Database := mkDatabase Samples.everyone [] [] [].

(** Accounts are active unless they are Dave's, and everybody's password
    is ["secret"]. *)
Definition active (u : User) : bool := negb (id u =? 4).
Definition password_is_secret (u : User) (raw : string) : bool :=
  (raw =? "secret")%string.
Definition any_address (address : string) : bool := true.

End Scenarios.
(* ================================================================== *)
(** * Properties                                                       *)
(* ================================================================== *)

(** ** Arithmetic of the embedded comparisons *)

Lemma Qle_bool_inject_Z (a b : Z) : Qle_bool (inject_Z a) (inject_Z b) = (a <=? b).
Proof. unfold Qle_bool; simpl. now rewrite !Z.mul_1_r. Qed.

Lemma le_int (a b : Z) : le (VInt a) (VInt b) = Ret (VBool (a <=? b)).
Proof. unfold le; simpl. now rewrite Qle_bool_inject_Z. Qed.

Lemma ge_int (a b : Z) : ge (VInt a) (VInt b) = Ret (VBool (b <=? a)).
Proof. apply le_int. Qed.

Lemma get_age_eq (u : User) (today : date) :
  get_age u today =
  Ret (match date_of_birth u with
       | Some dob => VInt (age_on dob today)
       | None => VNone
       end).
Proof. unfold get_age. now destruct (date_of_birth u). Qed.

Lemma can_donate_eq (u : User) (today : date) :
  can_donate u today =
  Ret (VBool (is_donor u && is_available_for_donation u && cooldown_over u today)).
Proof.
  unfold can_donate, cooldown_over.
  destruct (is_donor u), (is_available_for_donation u); simpl; try reflexivity.
  destruct (last_donation_date u); simpl; [apply ge_int | reflexivity].
Qed.

(** [(a and b) and c] and [a and (b and c)] denote the same value, so the
    way a chain of [and] is bracketed is immaterial. *)
Lemma and_assoc (a b c : result value) :
  (a and' b) and' c = a and' (b and' c).
Proof.
  destruct a as [v|e]; cbn [and_]; [|reflexivity].
  destruct (truthy v) eqn:E; [reflexivity|].
  cbn [and_]. now rewrite E.
Qed.

Lemma float_ge_truthy (k : Z) (w : pyfloat) :
  0 < k -> float_le (FFinite (inject_Z k)) w = true -> truthy (VFloat w) = true.
Proof.
  intros Hk. destruct w as [ | neg | [n d]]; simpl; try reflexivity.
  intros H. apply negb_true_iff.
  destruct (Qeq_bool (n # d) 0) eqn:E; [|reflexivity].
  apply Qeq_bool_iff in E. apply Qle_bool_iff in H.
  unfold Qeq, Qle in *; simpl in *. lia.
Qed.


Lemma is_eligible_donor_eq (u : User) (today : date) :
  is_eligible_donor u today =
  match date_of_birth u with
  | None => Ret (VBool false)
  | Some dob =>
      let a := age_on dob today in
      if a =? 0 then Ret (VBool false)
      else if negb (18 <=? a) then Ret (VBool false)
      else if negb (a <=? 65) then Ret (VBool false)
      else
        match weight u with
        | None => Ret VNone
        | Some w =>
            if negb (truthy (VFloat w)) then Ret (VFloat w)
            else if negb (float_le (FFinite (inject_Z 50)) w) then Ret (VBool false)
            else if (blood_group u =? "")%string then Ret (VStr (blood_group u))
            else can_donate u today
        end
  end.
Proof.
  unfold is_eligible_donor. rewrite get_age_eq.
  destruct (date_of_birth u) as [dob|]; cbn [bind truthy negb]; [|reflexivity].
  rewrite !le_int.
  destruct (age_on dob today =? 0); cbn [negb]; [reflexivity|].
  unfold and_ at 1. cbn [truthy].
  destruct (18 <=? age_on dob today); cbn [negb]; [|reflexivity].
  unfold and_ at 1. cbn [truthy].
  destruct (age_on dob today <=? 65); cbn [negb]; [|reflexivity].
  destruct (weight u) as [w|]; cbn [of_float and_ truthy]; [|reflexivity].
  assert (Hge : ge (VFloat w) (VInt 50) = Ret (VBool (float_le (FFinite (inject_Z 50)) w)))
    by reflexivity.
  rewrite Hge; clear Hge.
  destruct (match w with FFinite q => negb (Qeq_bool q 0) | _ => true end);
    cbn [negb]; [|reflexivity].
  unfold and_. cbn [truthy].
  destruct (float_le (FFinite (inject_Z 50)) w); cbn [negb]; [|reflexivity].
  destruct (blood_group u =? "")%string; reflexivity.
Qed.

Lemma returns_truthy_bool (b : bool) : returns_truthy (Ret (VBool b)) <-> b = true.
Proof.
  split.
  - intros (v & Hv & Ht). injection Hv as <-. exact Ht.
  - intros ->. now exists (VBool true).
Qed.

Lemma returns_falsy_ret (v : value) : truthy v = false -> returns_falsy (Ret v).
Proof. intros H. now exists v. Qed.

Lemma returns_truthy_ret (v : value) : returns_truthy (Ret v) <-> truthy v = true.
Proof.
  split.
  - intros (v' & Hv & Ht). now injection Hv as <-.
  - intros H. now exists v.
Qed.

Lemma eligible_iff (u : User) (today : date) :
  returns_truthy (is_eligible_donor u today) <->
  age_in_range u today /\ weight_at_least 50 u /\ blood_group u <> "" /\
  can_donate u today = Ret (VBool true).
Proof.
  unfold age_in_range, weight_at_least.
  rewrite is_eligible_donor_eq, get_age_eq, can_donate_eq.
  destruct (date_of_birth u) as [dob|]; cbn zeta.
  2:{ rewrite returns_truthy_ret; cbn. split; [discriminate|].
      intros ((a & Ha & _) & _). discriminate. }
  set (a := age_on dob today).
  destruct (Z.eqb_spec a 0) as [E0|E0].
  { rewrite returns_truthy_ret; cbn. split; [discriminate|].
    intros ((a' & Ha & Hr) & _). injection Ha as <-. lia. }
  destruct (Z.leb_spec 18 a) as [L1|L1]; cbn [negb].
  2:{ rewrite returns_truthy_ret; cbn. split; [discriminate|].
      intros ((a' & Ha & Hr) & _). injection Ha as <-. lia. }
  destruct (Z.leb_spec a 65) as [L2|L2]; cbn [negb].
  2:{ rewrite returns_truthy_ret; cbn. split; [discriminate|].
      intros ((a' & Ha & Hr) & _). injection Ha as <-. lia. }
  destruct (weight u) as [w|].
  2:{ rewrite returns_truthy_ret; cbn. split; [discriminate|].
      intros (_ & (w & Hw & _) & _). discriminate. }
  destruct (float_le (FFinite (inject_Z 50)) w) eqn:Hle.
  2:{ destruct (negb (truthy (VFloat w))) eqn:Ht; cbn [negb];
      rewrite returns_truthy_ret.
      - apply negb_true_iff in Ht. rewrite Ht. split; [discriminate|].
        intros (_ & (w' & Hw & Hw') & _). injection Hw as <-. congruence.
      - cbn [truthy]. split; [discriminate|].
        intros (_ & (w' & Hw & Hw') & _). injection Hw as <-. congruence. }
  rewrite (float_ge_truthy 50 w) by (trivial; lia). cbn [negb].
  destruct (String.eqb_spec (blood_group u) "") as [Eb|Eb].
  { rewrite returns_truthy_ret, Eb; cbn. split; [discriminate|].
    intros (_ & _ & Hb & _). now elim Hb. }
  rewrite returns_truthy_bool. split.
  - intros H. repeat split; eauto. now rewrite H.
  - intros (_ & _ & _ & H). now injection H.
Qed.

(** ** The day count *)

Lemma days_before_next_year (y : Z) :
  days_before_year (y + 1) = days_before_year y + (if is_leap y then 366 else 365).
Proof.
  unfold days_before_year, is_leap. cbv zeta.
  replace (y + 1 - 1) with y by lia.
  destruct (Z.eqb_spec (y mod 4) 0), (Z.eqb_spec (y mod 100) 0),
    (Z.eqb_spec (y mod 400) 0); cbn [negb andb orb];
    Z.to_euclidean_division_equations; lia.
Qed.

Lemma valid_date_month_day_ok (d : date) :
  valid_date d = true -> month_day_ok d.
Proof.
  unfold valid_date, month_day_ok. rewrite !andb_true_iff, !Z.leb_le. tauto.
Qed.

(** Replaces the look-ups in the month table at known months by their
    values. *)
Ltac eval_month_table :=
  repeat match goal with
         | |- context [days_before_month_table ?k] =>
             let v := eval vm_compute in (days_before_month_table k) in
             change (days_before_month_table k) with v
         end.

Lemma toordinal_next_day (d : date) :
  month_day_ok d -> toordinal (next_day d) = toordinal d + 1.
Proof.
  destruct d as [y m dd]. unfold month_day_ok, next_day, toordinal. cbn [year month day].
  intros [Hm Hd].
  destruct (Z.ltb_spec dd (days_in_month y m)) as [L|L]; cbn [year month day]; [lia|].
  assert (dd = days_in_month y m) as -> by lia. clear L Hd.
  destruct (Z.ltb_spec m 12) as [L|L]; cbn [year month day].
  - assert (m = 1 \/ m = 2 \/ m = 3 \/ m = 4 \/ m = 5 \/ m = 6 \/ m = 7 \/
            m = 8 \/ m = 9 \/ m = 10 \/ m = 11) as Hc by lia.
    remember (days_before_year y) as dy. clear Heqdy.
    unfold days_before_month, days_in_month.
    repeat (destruct Hc as [-> | Hc]); try subst m; eval_month_table;
      cbn; destruct (is_leap y); cbn; lia.
  - assert (m = 12) as -> by lia.
    rewrite days_before_next_year.
    remember (days_before_year y) as dy. clear Heqdy.
    unfold days_before_month, days_in_month. eval_month_table. cbn.
    destruct (is_leap y); cbn; lia.
Qed.

Lemma next_day_ok (d : date) : month_day_ok d -> month_day_ok (next_day d).
Proof.
  destruct d as [y m dd]. unfold month_day_ok, next_day. cbn [year month day].
  intros [Hm Hd].
  destruct (Z.ltb_spec dd (days_in_month y m)); cbn [year month day]; [lia|].
  destruct (Z.ltb_spec m 12); cbn [year month day].
  - split; [lia|]. unfold days_in_month.
    repeat match goal with |- context [if ?c then _ else _] => destruct c end; lia.
  - cbn. lia.
Qed.

Lemma sub_days_iter_next_day (n : nat) (d : date) :
  month_day_ok d -> sub_days (Nat.iter n next_day d) d = Z.of_nat n.
Proof.
  intros Hd. unfold sub_days.
  assert (month_day_ok (Nat.iter n next_day d) /\
          toordinal (Nat.iter n next_day d) = toordinal d + Z.of_nat n) as [_ H].
  { induction n as [|n [IHok IHn]].
    - cbn. split; [assumption | lia].
    - change (Nat.iter (S n) next_day d) with (next_day (Nat.iter n next_day d)).
      split; [now apply next_day_ok|].
      rewrite toordinal_next_day by assumption. lia. }
  lia.
Qed.

Lemma returns_cases (r : result value) :
  (exists v, r = Ret v) -> ~ returns_truthy r -> returns_falsy r.
Proof.
  intros [v ->] H. exists v. split; [reflexivity|].
  destruct (truthy v) eqn:E; [|reflexivity].
  elim H. now exists v.
Qed.

Lemma returns_truthy_not_falsy (r : result value) :
  returns_truthy r -> returns_falsy r -> False.
Proof. intros (v & -> & Hv) (v' & E & Hv'). injection E as <-. congruence. Qed.

Lemma is_eligible_donor_returns (u : User) (today : date) :
  exists v, is_eligible_donor u today = Ret v.
Proof.
  rewrite is_eligible_donor_eq, can_donate_eq.
  destruct (date_of_birth u); cbn zeta; eauto.
  repeat match goal with
         | |- context [if ?c then _ else _] => destruct c
         | |- context [match weight u with _ => _ end] => destruct (weight u)
         end; eauto.
Qed.

Lemma eligible_is_true (u : User) (today : date) :
  returns_truthy (is_eligible_donor u today) ->
  is_eligible_donor u today = Ret (VBool true).
Proof.
  intros H. pose proof H as H'. apply eligible_iff in H'.
  destruct H' as ((a & Ha & Hr) & (w & Hw & Hle) & Hb & Hc).
  rewrite get_age_eq in Ha.
  rewrite is_eligible_donor_eq.
  destruct (date_of_birth u) as [dob|]; [|discriminate].
  injection Ha as Ha. cbn zeta. rewrite Ha, Hw, Hle.
  rewrite (float_ge_truthy 50 w) by (trivial; lia).
  destruct (Z.eqb_spec a 0); [lia|].
  destruct (Z.leb_spec 18 a); [|lia].
  destruct (Z.leb_spec a 65); [|lia].
  cbn [negb]. destruct (String.eqb_spec (blood_group u) ""); [contradiction|].
  exact Hc.
Qed.

(** ** Eligibility *)


(** C2.  [can_donate] is [False] for a user who is not a donor or not
    available; otherwise [True] when no donation is on record; otherwise
    [True] exactly when [today] is at least 90 days after the last
    donation: 89 days is too early, 90 days is enough. *)
Theorem can_donate_spec (u : User) (today : date) :
  (is_donor u = false \/ is_available_for_donation u = false ->
     can_donate u today = Ret (VBool false)) /\
  (is_donor u = true -> is_available_for_donation u = true ->
     (last_donation_date u = None -> can_donate u today = Ret (VBool true)) /\
     (forall d, last_donation_date u = Some d ->
        can_donate u today = Ret (VBool (90 <=? sub_days today d)) /\
        (can_donate u today = Ret (VBool true) <-> 90 <= sub_days today d) /\
        (sub_days today d = 89 -> can_donate u today = Ret (VBool false)) /\
        (sub_days today d = 90 -> can_donate u today = Ret (VBool true)) /\
        (month_day_ok d -> today = Nat.iter 89 next_day d ->
           can_donate u today = Ret (VBool false)) /\
        (month_day_ok d -> today = Nat.iter 90 next_day d ->
           can_donate u today = Ret (VBool true)))).
Proof.
  rewrite can_donate_eq. unfold cooldown_over. split.
  - intros [-> | ->]; [reflexivity|]. now rewrite andb_false_r.
  - intros -> ->. cbn [andb]. split.
    + now intros ->.
    + intros d ->. split; [reflexivity|]. split; [|repeat split].
      * split.
        -- intros H. injection H as H. now apply Z.leb_le.
        -- intros H. apply Z.leb_le in H. now rewrite H.
      * now intros ->.
      * now intros ->.
      * intros Hd ->. now rewrite sub_days_iter_next_day.
      * intros Hd ->. now rewrite sub_days_iter_next_day.
Qed.

(** ** Requests *)

Lemma is_expired_eq (r : BloodRequest) (now : datetime) :
  is_expired r now = Ret (VBool (expired_at r now)).
Proof. unfold is_expired, expired_at. now destruct (needed_by_date r). Qed.

Lemma can_accept_eq (r : BloodRequest) (u : User) (now : datetime) (v : value) :
  is_eligible_donor u (dt_date now) = Ret v ->
  can_accept r (Some (LoggedIn u)) now =
  if negb (user_ne u (requester r)) then Ret (VBool false)
  else if negb (truthy v) then Ret v
  else if negb (blood_group u =? blood_group_needed r)%string then Ret (VBool false)
  else if negb (status r =? "ACTIVE")%string then Ret (VBool false)
  else Ret (VBool (negb (expired_at r now))).
Proof.
  intros Hv. unfold can_accept. rewrite Hv, is_expired_eq.
  unfold and_, not_, bind. cbn [truthy].
  destruct (user_ne u (requester r)); cbn [negb]; [|reflexivity].
  destruct (truthy v); cbn [negb]; [|reflexivity].
  destruct (blood_group u =? blood_group_needed r)%string; cbn [negb]; [|reflexivity].
  destruct (status r =? "ACTIVE")%string; reflexivity.
Qed.

Lemma can_accept_returns (r : BloodRequest) (user : option principal)
    (now : datetime) :
  exists v, can_accept r user now = Ret v.
Proof.
  destruct user as [[|u]|]; [cbn [can_accept]; eauto | | cbn [can_accept]; eauto].
  destruct (is_eligible_donor_returns u (dt_date now)) as [v Hv].
  rewrite (can_accept_eq _ _ _ _ Hv).
  repeat match goal with |- context [if ?c then _ else _] => destruct c end; eauto.
Qed.

Lemma can_accept_iff (r : BloodRequest) (user : option principal)
    (now : datetime) :
  returns_truthy (can_accept r user now) <->
  exists u, user = Some (LoggedIn u) /\ id u <> id (requester r) /\
            returns_truthy (is_eligible_donor u (dt_date now)) /\
            blood_group u = blood_group_needed r /\
            status r = "ACTIVE" /\
            is_expired r now = Ret (VBool false).
Proof.
  destruct user as [[|u]|].
  1,3: cbn [can_accept]; rewrite returns_truthy_bool; split;
       [discriminate | intros (u & Hu & _); discriminate].
  destruct (is_eligible_donor_returns u (dt_date now)) as [v Hv].
  rewrite (can_accept_eq _ _ _ _ Hv), is_expired_eq.
  unfold user_ne. rewrite negb_involutive.
  destruct (Z.eqb_spec (id u) (id (requester r))) as [Ei|Ei].
  { rewrite returns_truthy_bool. split; [discriminate|].
    intros (u' & Hu & Hne & _). injection Hu as <-. contradiction. }
  destruct (truthy v) eqn:Ht; cbn [negb].
  2:{ rewrite returns_truthy_ret. split; [congruence|].
      intros (u' & Hu & _ & He & _). injection Hu as <-.
      rewrite Hv in He. apply returns_truthy_ret in He. congruence. }
  destruct (String.eqb_spec (blood_group u) (blood_group_needed r)) as [Eb|Eb];
    cbn [negb].
  2:{ rewrite returns_truthy_bool. split; [discriminate|].
      intros (u' & Hu & _ & _ & Hb & _). injection Hu as <-. contradiction. }
  destruct (String.eqb_spec (status r) "ACTIVE") as [Es|Es]; cbn [negb].
  2:{ rewrite returns_truthy_bool. split; [discriminate|].
      intros (u' & Hu & _ & _ & _ & Hs & _). injection Hu as <-. contradiction. }
  rewrite returns_truthy_bool. split.
  - intros Hx. apply negb_true_iff in Hx. exists u.
    rewrite Hx, Hv. repeat split; trivial. now apply returns_truthy_ret.
  - intros (u' & Hu & _ & _ & _ & _ & Hx). injection Hx as ->. reflexivity.
Qed.

(** C3.  [can_accept] returns a true value exactly when the user is
    present and authenticated, is not the requester, is an eligible donor,
    has the blood group the request needs, and the request is ['ACTIVE']
    and not expired.  Hence it returns a false value whenever the status is
    not ['ACTIVE'] or the request is expired, whatever the blood groups. *)
Theorem can_accept_spec (r : BloodRequest) (user : option principal)
    (now : datetime) :
  (returns_truthy (can_accept r user now) <->
     exists u, user = Some (LoggedIn u) /\ id u <> id (requester r) /\
               returns_truthy (is_eligible_donor u (dt_date now)) /\
               blood_group u = blood_group_needed r /\
               status r = "ACTIVE" /\
               is_expired r now = Ret (VBool false)) /\
  (status r <> "ACTIVE" \/ is_expired r now = Ret (VBool true) ->
     returns_falsy (can_accept r user now)).
Proof.
  split; [apply can_accept_iff|].
  intros H. apply returns_cases; [apply can_accept_returns|].
  intros Ht. apply can_accept_iff in Ht.
  destruct Ht as (u & _ & _ & _ & _ & Hs & Hx).
  destruct H as [H|H]; [contradiction | congruence].
Qed.

(** C9.  A request without [needed_by_date] is not expired at any instant,
    and [can_accept] then depends on the remaining conditions only. *)
Theorem is_expired_without_deadline (r : BloodRequest) (now : datetime) :
  needed_by_date r = None ->
  is_expired r now = Ret (VBool false) /\
  forall user,
    returns_truthy (can_accept r user now) <->
    exists u, user = Some (LoggedIn u) /\ id u <> id (requester r) /\
              returns_truthy (is_eligible_donor u (dt_date now)) /\
              blood_group u = blood_group_needed r /\
              status r = "ACTIVE".
Proof.
  intros Hn.
  assert (Hx : is_expired r now = Ret (VBool false))
    by (unfold is_expired; now rewrite Hn).
  split; [exact Hx|]. intros user. rewrite can_accept_iff. split.
  - intros (u & H1 & H2 & H3 & H4 & H5 & _). exists u. auto.
  - intros (u & H1 & H2 & H3 & H4 & H5). exists u. auto 7.
Qed.

(** C7.  Missing data never makes a predicate raise: without a date of
    birth [get_age] is [None] and [is_eligible_donor] is [False]; without a
    weight [is_eligible_donor] returns a false value; and [get_age],
    [can_donate], [is_eligible_donor] and [is_expired] return a value for
    every user, request and clock reading. *)
Theorem predicates_fail_closed :
  (forall u today, date_of_birth u = None ->
     get_age u today = Ret VNone /\
     is_eligible_donor u today = Ret (VBool false)) /\
  (forall u today, weight u = None ->
     returns_falsy (is_eligible_donor u today)) /\
  (forall u today,
     (exists v, get_age u today = Ret v) /\
     (exists v, can_donate u today = Ret v) /\
     (exists v, is_eligible_donor u today = Ret v)) /\
  (forall r now, exists v, is_expired r now = Ret v).
Proof.
  split; [|split; [|split]].
  - intros u today H. split.
    + rewrite get_age_eq. now rewrite H.
    + rewrite is_eligible_donor_eq. now rewrite H.
  - intros u today H.
    apply returns_cases; [apply is_eligible_donor_returns|].
    intros Ht. apply eligible_iff in Ht.
    destruct Ht as (_ & (w & Hw & _) & _). congruence.
  - intros u today. split; [|split].
    + rewrite get_age_eq. eauto.
    + rewrite can_donate_eq. eauto.
    + apply is_eligible_donor_returns.
  - intros r now. rewrite is_expired_eq. eauto.
Qed.

(** C4.  [get_compatible_donors] returns exactly the users whose blood
    group is the one needed and who are donors, available and verified,
    the requester excepted; no row carrying the requester's primary key is
    ever in the result, whatever its other columns hold. *)
Theorem get_compatible_donors_spec (table : list User) (r : BloodRequest) :
  (forall u,
     In u (get_compatible_donors table r) <->
     In u table /\
     blood_group u = blood_group_needed r /\
     is_donor u = true /\
     is_available_for_donation u = true /\
     is_email_verified u = true /\
     id u <> id (requester r)) /\
  (forall u, id u = id (requester r) -> ~ In u (get_compatible_donors table r)) /\
  ~ In (requester r) (get_compatible_donors table r).
Proof.
  assert (H : forall u,
     In u (get_compatible_donors table r) <->
     In u table /\
     blood_group u = blood_group_needed r /\
     is_donor u = true /\
     is_available_for_donation u = true /\
     is_email_verified u = true /\
     id u <> id (requester r)).
  { intros u. unfold get_compatible_donors. rewrite !filter_In.
    rewrite !andb_true_iff, negb_true_iff, Z.eqb_neq, String.eqb_eq.
    rewrite !eqb_true_iff. tauto. }
  split; [exact H|]. split.
  - intros u Hid Hin. apply H in Hin. tauto.
  - intros Hin. apply H in Hin. tauto.
Qed.

Lemma eligible_among_donors (u : User) (today : date) :
  is_donor u = true -> is_available_for_donation u = true ->
  (returns_truthy (is_eligible_donor u today) <->
     age_in_range u today /\ weight_at_least 50 u /\ blood_group u <> "" /\
     cooldown_over u today = true).
Proof.
  intros Hd Ha. rewrite eligible_iff, can_donate_eq, Hd, Ha. cbn [andb].
  split; intros (H1 & H2 & H3 & H4); repeat split; trivial.
  - now injection H4.
  - now rewrite H4.
Qed.

(** C5 (as amended).  A user returned by [get_compatible_donors] is a
    verified donor who is available and has the needed blood group; age,
    weight and the 90-day interval are not looked at, so such a user is an
    eligible donor exactly when those three hold as well and the needed
    group is non-empty. *)
Theorem compatible_donors_screening (table : list User) (r : BloodRequest)
    (today : date) (u : User) :
  In u (get_compatible_donors table r) ->
  is_donor u = true /\
  is_available_for_donation u = true /\
  is_email_verified u = true /\
  blood_group u = blood_group_needed r /\
  (returns_truthy (is_eligible_donor u today) <->
     age_in_range u today /\ weight_at_least 50 u /\
     blood_group_needed r <> "" /\ cooldown_over u today = true).
Proof.
  unfold get_compatible_donors. rewrite !filter_In.
  rewrite !andb_true_iff, String.eqb_eq, !eqb_true_iff.
  intros ((_ & ((Hb & Hd) & Ha) & Hv) & _).
  do 4 (split; [assumption|]).
  rewrite <- Hb. now apply eligible_among_donors.
Qed.

(** C5, counterexample.  Erin is returned for the sample request although
    she has neither a date of birth nor a weight on file and is therefore
    not an eligible donor. *)
Lemma compatible_donor_not_eligible :
  In Samples.erin (get_compatible_donors Samples.everyone Samples.request) /\
  is_eligible_donor Samples.erin (dt_date Samples.noon) = Ret (VBool false) /\
  ~ (forall table r today u,
       In u (get_compatible_donors table r) ->
       returns_truthy (is_eligible_donor u today)).
Proof.
  assert (Hin : In Samples.erin
                  (get_compatible_donors Samples.everyone Samples.request))
    by (vm_compute; tauto).
  split; [exact Hin|]. split; [reflexivity|].
  intros H. specialize (H _ _ (dt_date Samples.noon) _ Hin).
  destruct H as (v & Hv & Ht). vm_compute in Hv. injection Hv as <-.
  discriminate.
Qed.

Lemma not_expired_one_day_ahead (r : BloodRequest) (now deadline : datetime) :
  needed_by_date r = Some deadline -> one_day_ahead now deadline ->
  expired_at r now = false.
Proof.
  unfold expired_at, one_day_ahead, datetime_gt, micros_per_day.
  intros -> H. apply Z.ltb_ge. lia.
Qed.

(** C6 (as amended).  A logged-in user other than the requester who is
    aged 30, weighs 60, has blood group O+, is flagged as a donor, is
    available and has not donated within the last 90 days can accept an
    ['ACTIVE'] request for O+ that is needed one day from now: [can_accept]
    returns [True].  Nothing is asked of the verification flag, which
    [can_accept] does not consult. *)
Theorem example_can_accept (u : User) (r : BloodRequest) (now : datetime)
    (deadline : datetime) :
  get_age u (dt_date now) = Ret (VInt 30) ->
  weight u = Some (FFinite (inject_Z 60)) ->
  blood_group u = "O+" ->
  is_donor u = true ->
  is_available_for_donation u = true ->
  cooldown_over u (dt_date now) = true ->
  id u <> id (requester r) ->
  blood_group_needed r = "O+" ->
  status r = "ACTIVE" ->
  needed_by_date r = Some deadline ->
  one_day_ahead now deadline ->
  can_accept r (Some (LoggedIn u)) now = Ret (VBool true).
Proof.
  intros Hage Hw Hb Hdonor Ha Hc Hid Hn Hs Hd Hahead.
  assert (He : is_eligible_donor u (dt_date now) = Ret (VBool true)).
  { apply eligible_is_true. apply eligible_among_donors; trivial.
    split; [exists 30; split; [exact Hage | lia]|].
    split; [exists (FFinite (inject_Z 60)); split; [exact Hw | reflexivity]|].
    split; [rewrite Hb; discriminate | exact Hc]. }
  rewrite (can_accept_eq _ _ _ _ He).
  unfold user_ne. apply Z.eqb_neq in Hid. rewrite Hid.
  rewrite Hb, Hn, Hs, (not_expired_one_day_ahead _ _ _ Hd Hahead).
  reflexivity.
Qed.

(** C6, counterexample.  Alice, Carol and Dave all fit the description of
    the worked example, and none of them can accept the sample request:
    Alice posted it herself, Carol donated ten days ago, and Dave is not
    flagged as a donor. *)
Lemma example_premises_not_enough :
  (example_premises Samples.alice Samples.request Samples.noon /\
   can_accept Samples.request (Some (LoggedIn Samples.alice)) Samples.noon
   = Ret (VBool false)) /\
  (example_premises Samples.carol Samples.request Samples.noon /\
   can_accept Samples.request (Some (LoggedIn Samples.carol)) Samples.noon
   = Ret (VBool false)) /\
  (example_premises Samples.dave Samples.request Samples.noon /\
   can_accept Samples.request (Some (LoggedIn Samples.dave)) Samples.noon
   = Ret (VBool false)) /\
  ~ (forall u r now,
       example_premises u r now ->
       returns_truthy (can_accept r (Some (LoggedIn u)) now)).
Proof.
  assert (Hp : forall u,
             In u [Samples.alice; Samples.carol; Samples.dave] ->
             example_premises u Samples.request Samples.noon).
  { intros u [<- | [<- | [<- | []]]];
      (repeat split; try reflexivity);
      exists Samples.next_noon; split; reflexivity. }
  do 3 (split; [split; [apply Hp; cbn; tauto | reflexivity]|]).
  intros H.
  specialize (H _ _ _ (Hp Samples.dave ltac:(cbn; tauto))).
  destruct H as (v & Hv & Ht). vm_compute in Hv. injection Hv as <-.
  discriminate.
Qed.

(** ** One response per donor and request *)

Lemma response_exists_iff (table : list BloodRequestResponse) (a b : Z) :
  response_exists table a b = true <-> In (a, b) (map response_key table).
Proof.
  unfold response_exists. rewrite existsb_exists, in_map_iff. unfold has_key.
  split.
  - intros (r & Hin & Hk). apply andb_true_iff in Hk as [Ha Hb].
    apply Z.eqb_eq in Ha, Hb. exists r. unfold response_key. now subst.
  - intros (r & Hk & Hin). injection Hk as <- <-. exists r.
    now rewrite !Z.eqb_refl.
Qed.

Lemma insert_response_unique (table t : list BloodRequestResponse)
    (row : BloodRequestResponse) :
  NoDup (map response_key table) ->
  insert_response table row = Ret t ->
  NoDup (map response_key t).
Proof.
  unfold insert_response. intros Hu.
  destruct (response_exists table (blood_request row) (donor row)) eqn:E;
    [discriminate|].
  intros H. injection H as <-. cbn [map]. constructor; [|exact Hu].
  intros Hin. apply response_exists_iff in Hin. congruence.
Qed.

(** Deleting rows cannot create a duplicate key. *)
Lemma delete_keeps_keys_distinct (keep : BloodRequestResponse -> bool)
    (table : list BloodRequestResponse) :
  NoDup (map response_key table) ->
  NoDup (map response_key (filter keep table)).
Proof.
  induction table as [|row rest IH]; cbn [map filter]; intros Hu; [exact Hu|].
  apply NoDup_cons_iff in Hu as [Hfresh Hrest].
  destruct (keep row); [|now apply IH].
  cbn [map]. apply NoDup_cons_iff. split; [|now apply IH].
  intros Hin. apply Hfresh.
  apply in_map_iff in Hin as (other & Hkey & Hin).
  apply filter_In in Hin as [Hin _].
  rewrite <- Hkey. now apply in_map.
Qed.

Lemma respond_view_cases (db : Database) (now : datetime) (user : principal)
    (method : http_method) (form : ResponseForm) (pk : Z) :
  fst (respond_view db now user method form pk) = db \/
  exists row t,
    insert_response (responses db) row = Ret t /\
    fst (respond_view db now user method form pk) = with_responses db t.
Proof.
  unfold respond_view.
  destruct (get_blood_request db pk) as [req|]; [|now left].
  destruct (can_accept req (Some user) now) as [ok|e]; [|now left].
  destruct (negb (truthy ok)); [now left|].
  destruct user as [|u]; [now left|].
  destruct (response_exists (responses db) (request_id req) (id u));
    [now left|].
  destruct method; [now left|].
  destruct (form_is_valid form); [|now left].
  match goal with
  | |- context [insert_response ?t ?r] =>
      destruct (insert_response t r) as [t'|e] eqn:E; [|now left];
      right; exists r, t'; split; [exact E | reflexivity]
  end.
Qed.

Lemma step_unique (db db' : Database) :
  step db db' -> unique_responses db -> unique_responses db'.
Proof.
  unfold unique_responses.
  intros [d now user method form pk | d row t Hi | d keep | d us rs ps] Hu.
  - destruct (respond_view_cases d now user method form pk)
      as [-> | (row & t & Hi & ->)]; [exact Hu|].
    cbn [responses with_responses]. eapply insert_response_unique; eauto.
  - cbn [responses with_responses]. eapply insert_response_unique; eauto.
  - cbn [responses with_responses]. now apply delete_keeps_keys_distinct.
  - exact Hu.
Qed.

Lemma reachable_unique (db : Database) : reachable db -> unique_responses db.
Proof.
  induction 1 as [db H | db db' _ IH Hs].
  - unfold unique_responses. rewrite H. constructor.
  - eapply step_unique; eauto.
Qed.

(** C8.  In every reachable state the (request, donor) pairs of the
    response table are pairwise distinct; the response view keeps it so,
    leaves the database untouched when the donor has already responded to
    the request, and otherwise (for a permitted donor posting a valid
    form) adds exactly the one new row. *)
Theorem one_response_per_donor_and_request :
  (forall db, reachable db -> unique_responses db) /\
  (forall db now user method form pk,
     unique_responses db ->
     unique_responses (fst (respond_view db now user method form pk))) /\
  (forall db now u method form pk req,
     get_blood_request db pk = Some req ->
     response_exists (responses db) (request_id req) (id u) = true ->
     exists resp,
       respond_view db now (LoggedIn u) method form pk = (db, resp) /\
       resp <> RedirectToDetail (request_id req)
                 "Your response has been sent to the requester!") /\
  (forall db now u form pk req,
     get_blood_request db pk = Some req ->
     returns_truthy (can_accept req (Some (LoggedIn u)) now) ->
     response_exists (responses db) (request_id req) (id u) = false ->
     form_is_valid form = true ->
     responses (fst (respond_view db now (LoggedIn u) POST form pk)) =
     mkResponse (request_id req) (id u) (form_response form)
       (form_message form) (form_donor_phone form)
       (form_preferred_contact_time form) now :: responses db).
Proof.
  split; [exact reachable_unique|]. split; [|split].
  - intros db now user method form pk Hu.
    eapply step_unique; [apply step_respond | exact Hu].
  - intros db now u method form pk req Hreq Hex.
    unfold respond_view. rewrite Hreq.
    destruct (can_accept req (Some (LoggedIn u)) now) as [ok|e].
    + destruct (negb (truthy ok)).
      * eexists; split; [reflexivity | intros H; discriminate H].
      * rewrite Hex. eexists; split; [reflexivity | intros H; discriminate H].
    + eexists; split; [reflexivity | discriminate].
  - intros db now u form pk req Hreq (ok & Hok & Ht) Hex Hvalid.
    unfold respond_view, insert_response.
    rewrite Hreq, Hok, Ht. cbn [negb].
    rewrite Hex, Hvalid. cbv zeta. cbn [blood_request donor].
    rewrite Hex. reflexivity.
Qed.

(** ** E-mail verification *)

Lemma get_user_by_token_Ret (table : list User) (token : Z) (u : User) :
  get_user_by_token table token = Ret u ->
  filter (fun r => email_verification_token r =? token) table = [u].
Proof.
  unfold get_user_by_token.
  destruct (filter _ table) as [|x [|y l]]; [discriminate | | discriminate].
  intros H. now injection H as ->.
Qed.

Lemma get_user_by_token_In (table : list User) (token : Z) (u : User) :
  get_user_by_token table token = Ret u ->
  In u table /\ email_verification_token u = token.
Proof.
  intros H. apply get_user_by_token_Ret in H.
  assert (Hin : In u (filter (fun r => email_verification_token r =? token) table))
    by (rewrite H; now left).
  apply filter_In in Hin as [Hin Ht]. now apply Z.eqb_eq in Ht.
Qed.

Lemma fst_view_unless_first (db : Database) (token : Z) (now : datetime) :
  (forall u, get_user_by_token (users db) token = Ret u ->
             is_email_verified u = true) ->
  fst (email_verification_view db token now) = db.
Proof.
  intros H. unfold email_verification_view.
  destruct (get_user_by_token (users db) token) as [u|e].
  - now rewrite (H u eq_refl).
  - now destruct e.
Qed.

Lemma verified_after_save (db : Database) (token : Z) (t : datetime)
    (u u' : User) :
  get_user_by_token (users db) token = Ret u ->
  get_user_by_token
    (users (save_user db (set_is_email_verified u true) t)) token = Ret u' ->
  is_email_verified u' = true.
Proof.
  intros Hu Hu'. apply get_user_by_token_Ret in Hu.
  apply get_user_by_token_In in Hu' as [Hin Htok].
  cbn [save_user users] in Hin. apply in_map_iff in Hin as (r & Hr & Hin).
  cbn [id set_is_email_verified set_updated_at] in Hr.
  destruct (Z.eqb_spec (id r) (id u)) as [E|E].
  - now subst u'.
  - subst u'.
    assert (Hf : In r (filter (fun r => email_verification_token r =? token)
                         (users db)))
      by (apply filter_In; split; [exact Hin | now apply Z.eqb_eq]).
    rewrite Hu in Hf. destruct Hf as [-> | []]. contradiction.
Qed.

(** C10 (as amended).  Following the verification link of a user who is
    already verified changes nothing in the database, so following it a
    second time leaves the state reached by the first time; the first time,
    the user's row gets [is_email_verified = True] and, the save
    refreshing it, a new [updated_at], every other column of the row and
    every other row of the table staying as they were. *)
Theorem email_verification_idempotent :
  (forall db token now u,
     get_user_by_token (users db) token = Ret u ->
     is_email_verified u = true ->
     email_verification_view db token now = (db, Ret "Email already verified.")) /\
  (forall db token t1 t2,
     fst (email_verification_view
            (fst (email_verification_view db token t1)) token t2) =
     fst (email_verification_view db token t1)) /\
  (forall db token now u,
     get_user_by_token (users db) token = Ret u ->
     is_email_verified u = false ->
     let db' := fst (email_verification_view db token now) in
     users db' =
       map (fun r =>
              if id r =? id u
              then mkUser (id u) (email u) (full_name u) (date_of_birth u)
                     (blood_group u) (weight u) (last_donation_date u) true
                     (is_donor u) (is_recipient u)
                     (is_available_for_donation u)
                     (email_verification_token u) now
              else r)
           (users db) /\
     blood_requests db' = blood_requests db /\
     responses db' = responses db /\
     profiles db' =
       save_user_profile (profiles db)
         (set_updated_at (set_is_email_verified u true) now) now).
Proof.
  split; [|split].
  - intros db token now u Hu Hv. unfold email_verification_view.
    now rewrite Hu, Hv.
  - intros db token t1 t2.
    unfold email_verification_view at 2 3.
    destruct (get_user_by_token (users db) token) as [u|e] eqn:Hu.
    + destruct (is_email_verified u) eqn:Hv; cbn [negb fst].
      * apply fst_view_unless_first. intros u' Hu'. congruence.
      * apply fst_view_unless_first. intros u' Hu'.
        exact (verified_after_save db token t1 u u' Hu Hu').
    + assert (fst (match e with
                   | DoesNotExist => (db, Ret "Invalid verification token.")
                   | _ => (db, @Raise string e)
                   end) = db) as -> by now destruct e.
      apply fst_view_unless_first. intros u' Hu'. congruence.
  - intros db token now u Hu Hv. unfold email_verification_view.
    rewrite Hu, Hv. cbn. auto.
Qed.

(** C10, counterexample.  When Frank follows his link for the first time
    his row does not merely get the flag set: [updated_at] moves from New
    Year to the time of the request as well. *)
Lemma first_verification_touches_updated_at :
  let db := mkDatabase [Samples.frank] [] [] [] in
  let db' := fst (email_verification_view db 1006 Samples.noon) in
  users db' =
    [set_updated_at (set_is_email_verified Samples.frank true) Samples.noon] /\
  users db' <> [set_is_email_verified Samples.frank true] /\
  updated_at Samples.frank = Samples.new_year /\
  (forall u, In u (users db') -> updated_at u = Samples.noon).
Proof.
  cbv zeta. split; [reflexivity|]. split; [|split; [reflexivity|]].
  - vm_compute. intros H. discriminate H.
  - intros u [<- | []]. reflexivity.
Qed.

(** ** The properties at work on the sample data *)


(** Heidi may donate again on the ninetieth day after her last donation
    and not on the eighty-ninth; Dave, not a donor, may not; Bob may. *)
Lemma can_donate_spec_witness :
  can_donate Samples.heidi (mkDate 2024 6 15) = Ret (VBool true) /\
  can_donate Samples.heidi (mkDate 2024 6 14) = Ret (VBool false) /\
  can_donate Samples.dave (mkDate 2024 6 15) = Ret (VBool false) /\
  can_donate Samples.bob (mkDate 2024 6 15) = Ret (VBool true).
Proof.
  split; [|split; [|split]].
  - destruct (can_donate_spec Samples.heidi (mkDate 2024 6 15)) as [_ H].
    destruct (H eq_refl eq_refl) as [_ H'].
    destruct (H' (mkDate 2024 3 17) eq_refl) as (_ & _ & _ & H90 & _).
    apply H90. reflexivity.
  - destruct (can_donate_spec Samples.heidi (mkDate 2024 6 14)) as [_ H].
    destruct (H eq_refl eq_refl) as [_ H'].
    destruct (H' (mkDate 2024 3 17) eq_refl) as (_ & _ & H89 & _).
    apply H89. reflexivity.
  - apply (proj1 (can_donate_spec Samples.dave (mkDate 2024 6 15))).
    left. reflexivity.
  - destruct (can_donate_spec Samples.bob (mkDate 2024 6 15)) as [_ H].
    destruct (H eq_refl eq_refl) as [H' _]. apply H'. reflexivity.
Defined.

(** Bob can accept the sample request at noon, and no longer once its
    deadline has passed. *)
Lemma can_accept_spec_witness :
  returns_truthy
    (can_accept Samples.request (Some (LoggedIn Samples.bob)) Samples.noon) /\
  returns_falsy
    (can_accept Samples.request (Some (LoggedIn Samples.bob))
       (mkDateTime (mkDate 2024 6 17) 0)).
Proof.
  split.
  - apply (proj1 (can_accept_spec Samples.request
                    (Some (LoggedIn Samples.bob)) Samples.noon)).
    exists Samples.bob. split; [reflexivity|]. split; [discriminate|].
    split; [exists (VBool true); split; reflexivity|].
    repeat split; reflexivity.
  - apply (proj2 (can_accept_spec Samples.request
                    (Some (LoggedIn Samples.bob))
                    (mkDateTime (mkDate 2024 6 17) 0))).
    right. reflexivity.
Defined.

(** Bob is among the compatible donors of the sample request; Alice, who
    posted it, is not. *)
Lemma get_compatible_donors_spec_witness :
  In Samples.bob (get_compatible_donors Samples.everyone Samples.request) /\
  ~ In Samples.alice (get_compatible_donors Samples.everyone Samples.request).
Proof.
  split.
  - apply (proj1 (get_compatible_donors_spec Samples.everyone Samples.request)
             Samples.bob).
    split; [cbn; tauto|]. repeat split; try reflexivity. discriminate.
  - apply (proj1 (proj2 (get_compatible_donors_spec
                           Samples.everyone Samples.request)) Samples.alice).
    reflexivity.
Defined.

(** What the query guarantees about Erin. *)
Lemma compatible_donors_screening_witness :
  is_donor Samples.erin = true /\
  is_available_for_donation Samples.erin = true /\
  is_email_verified Samples.erin = true /\
  blood_group Samples.erin = blood_group_needed Samples.request /\
  (returns_truthy (is_eligible_donor Samples.erin (dt_date Samples.noon)) <->
     age_in_range Samples.erin (dt_date Samples.noon) /\
     weight_at_least 50 Samples.erin /\
     blood_group_needed Samples.request <> "" /\
     cooldown_over Samples.erin (dt_date Samples.noon) = true).
Proof.
  apply (compatible_donors_screening Samples.everyone Samples.request
           (dt_date Samples.noon) Samples.erin).
  vm_compute. tauto.
Defined.

(** Bob is the user of the worked example, and would be without a
    verified address. *)
Lemma example_can_accept_witness :
  can_accept Samples.request
    (Some (LoggedIn (set_is_email_verified Samples.bob false))) Samples.noon
  = Ret (VBool true).
Proof.
  apply (example_can_accept (set_is_email_verified Samples.bob false)
           Samples.request Samples.noon Samples.next_noon);
    try reflexivity.
  discriminate.
Defined.

(** Erin has no date of birth, Frank no weight: neither is eligible, and
    nothing is raised. *)
Lemma predicates_fail_closed_witness :
  (get_age Samples.erin (dt_date Samples.noon) = Ret VNone /\
   is_eligible_donor Samples.erin (dt_date Samples.noon) = Ret (VBool false)) /\
  returns_falsy (is_eligible_donor Samples.frank (dt_date Samples.noon)).
Proof.
  split.
  - apply (proj1 predicates_fail_closed Samples.erin (dt_date Samples.noon)).
    reflexivity.
  - apply (proj1 (proj2 predicates_fail_closed) Samples.frank
             (dt_date Samples.noon)).
    reflexivity.
Defined.

(** The open-ended sample request never expires. *)
Lemma is_expired_without_deadline_witness :
  is_expired Samples.open_ended_request Samples.noon = Ret (VBool false) /\
  forall user,
    returns_truthy (can_accept Samples.open_ended_request user Samples.noon) <->
    exists u, user = Some (LoggedIn u) /\
              id u <> id (requester Samples.open_ended_request) /\
              returns_truthy (is_eligible_donor u (dt_date Samples.noon)) /\
              blood_group u = blood_group_needed Samples.open_ended_request /\
              status Samples.open_ended_request = "ACTIVE".
Proof.
  apply (is_expired_without_deadline Samples.open_ended_request Samples.noon).
  reflexivity.
Defined.

(** Bob responds to the sample request; his second attempt is turned
    away and the table keeps its single row. *)
Lemma one_response_per_donor_and_request_witness :
  let db1 :=
    fst (respond_view Samples.database Samples.noon (LoggedIn Samples.bob)
           POST Samples.accept_form 10) in
  unique_responses db1 /\
  responses db1 =
    [mkResponse 10 2 "ACCEPTED" "On my way" "0123456789" "any time"
       Samples.noon] /\
  exists resp,
    respond_view db1 Samples.noon (LoggedIn Samples.bob) POST
      Samples.accept_form 10 = (db1, resp) /\
    resp <> RedirectToDetail 10 "Your response has been sent to the requester!".
Proof.
  destruct one_response_per_donor_and_request as (Hreach & _ & Hrefuse & Hadd).
  cbv zeta. split; [|split].
  - apply Hreach.
    apply (reachable_step Samples.database).
    + apply reachable_init. reflexivity.
    + apply step_respond.
  - apply (Hadd Samples.database Samples.noon Samples.bob Samples.accept_form
             10 Samples.request).
    + reflexivity.
    + exists (VBool true). split; reflexivity.
    + reflexivity.
    + reflexivity.
  - apply (Hrefuse _ Samples.noon Samples.bob POST Samples.accept_form 10
             Samples.request).
    + reflexivity.
    + reflexivity.
Defined.

(** Frank follows his verification link twice. *)
Lemma email_verification_idempotent_witness :
  let db := mkDatabase [Samples.frank] [] [] [] in
  let db' := fst (email_verification_view db 1006 Samples.noon) in
  users db' =
    [mkUser 6 "frank@example.org" "Frank" (Some (mkDate 1990 2 2)) "A-"
       None None true true true true 1006 Samples.noon] /\
  email_verification_view db' 1006 Samples.next_noon =
    (db', Ret "Email already verified.").
Proof.
  destruct email_verification_idempotent as (Hnoop & _ & Hfirst).
  cbv zeta. split.
  - apply (Hfirst (mkDatabase [Samples.frank] [] [] []) 1006 Samples.noon
             Samples.frank); reflexivity.
  - apply (Hnoop _ 1006 Samples.next_noon
             (set_updated_at (set_is_email_verified Samples.frank true)
                Samples.noon)); reflexivity.
Defined.

(* ================================================================== *)
(** * Further properties of the models, forms and views                *)
(* ================================================================== *)

(** ** Age, waiting period and expiry over time *)

(** X1.  The age [get_age] computes reaches [k] exactly on the [k]-th
    anniversary of the date of birth: it is at least [k] if and only if
    today's (year, month, day) is not before (year of birth + k, month,
    day).  For someone born on 29 February that is 1 March in a common
    year. *)
Theorem get_age_reaches_on_anniversary (u : User) (dob today : date) (k : Z) :
  date_of_birth u = Some dob ->
  (exists a, get_age u today = Ret (VInt a) /\ k <= a) <->
  date_le (anniversary k dob) today = true.
Proof.
  intros Hd. rewrite get_age_eq, Hd. unfold date_le, anniversary, age_on, pair_lt.
  cbn [year month day fst snd].
  rewrite !orb_true_iff, !andb_true_iff, !orb_true_iff, !andb_true_iff.
  rewrite !Z.ltb_lt, !Z.eqb_eq, Z.leb_le.
  split.
  - intros (a & Ha & Hk). injection Ha as <-.
    destruct (Z.ltb_spec (month today) (month dob));
      destruct (Z.eqb_spec (month today) (month dob));
      destruct (Z.ltb_spec (day today) (day dob)); cbn in Hk; lia.
  - intros H. eexists. split; [reflexivity|].
    destruct (Z.ltb_spec (month today) (month dob));
      destruct (Z.eqb_spec (month today) (month dob));
      destruct (Z.ltb_spec (day today) (day dob)); cbn; lia.
Qed.

(** Someone born on 29 February 2004 is 17 on 28 February 2022 and 18 on
    1 March 2022. *)
Lemma get_age_reaches_on_anniversary_witness :
  date_le (anniversary 18 (mkDate 2004 2 29)) (mkDate 2022 3 1) = true /\
  date_le (anniversary 18 (mkDate 2004 2 29)) (mkDate 2022 2 28) = false.
Proof.
  set (u := mkUser 9 "leap@example.org" "Leap" (Some (mkDate 2004 2 29)) "O+"
              None None true true true true 1009 Samples.new_year).
  split.
  - apply (proj1 (get_age_reaches_on_anniversary u (mkDate 2004 2 29)
                    (mkDate 2022 3 1) 18 eq_refl)).
    exists 18. split; [reflexivity | lia].
  - reflexivity.
Defined.

(** X2.  Waiting never makes a donor lose the right to donate: if
    [can_donate] is [True] on some day, it is [True] on every later day,
    as long as the user's row stays the same. *)
Theorem can_donate_stays_true (u : User) (today later : date) :
  toordinal today <= toordinal later ->
  can_donate u today = Ret (VBool true) ->
  can_donate u later = Ret (VBool true).
Proof.
  rewrite !can_donate_eq. unfold cooldown_over, sub_days. intros Hle H.
  injection H as H. apply andb_true_iff in H as [Hf Hc]. rewrite Hf. cbn [andb].
  destruct (last_donation_date u) as [d|]; [|reflexivity].
  apply Z.leb_le in Hc. f_equal. f_equal. apply Z.leb_le. lia.
Qed.

(** Heidi may donate on 15 June 2024 and therefore on 1 August. *)
Lemma can_donate_stays_true_witness :
  can_donate Samples.heidi (mkDate 2024 8 1) = Ret (VBool true).
Proof.
  apply (can_donate_stays_true Samples.heidi (mkDate 2024 6 15) (mkDate 2024 8 1)).
  - vm_compute. discriminate.
  - reflexivity.
Defined.

(** X3.  Expiry is final: once a request is expired it is expired at every
    later instant, and from then on [can_accept] returns a false value for
    every user. *)
Theorem expired_request_stays_closed (r : BloodRequest) (now later : datetime)
    (user : option principal) :
  instant now <= instant later ->
  is_expired r now = Ret (VBool true) ->
  is_expired r later = Ret (VBool true) /\
  returns_falsy (can_accept r user later).
Proof.
  rewrite !is_expired_eq. unfold expired_at, datetime_gt. intros Hle H.
  injection H as H.
  assert (Hx : match needed_by_date r with
               | Some deadline => instant deadline <? instant later
               | None => false
               end = true).
  { destruct (needed_by_date r) as [d|]; [|discriminate].
    apply Z.ltb_lt in H. apply Z.ltb_lt. lia. }
  split; [now rewrite Hx|].
  apply returns_cases; [apply can_accept_returns|].
  intros Ht. apply can_accept_iff in Ht.
  destruct Ht as (u & _ & _ & _ & _ & _ & He).
  rewrite is_expired_eq in He. unfold expired_at, datetime_gt in He.
  rewrite Hx in He. discriminate.
Qed.

(** The sample request, due at noon on 16 June, is closed to Bob on the
    17th and still on the 18th. *)
Lemma expired_request_stays_closed_witness :
  returns_falsy
    (can_accept Samples.request (Some (LoggedIn Samples.bob))
       (mkDateTime (mkDate 2024 6 18) 0)).
Proof.
  apply (expired_request_stays_closed Samples.request
           (mkDateTime (mkDate 2024 6 17) 0) (mkDateTime (mkDate 2024 6 18) 0)
           (Some (LoggedIn Samples.bob))).
  - vm_compute. discriminate.
  - reflexivity.
Defined.

(** ** Form validation *)

Lemma lt_int (a b : Z) : lt (VInt a) (VInt b) = Ret (VBool (a <? b)).
Proof.
  unfold lt, gt; cbn [as_number float_lt]. unfold Qle_bool; cbn.
  rewrite !Z.mul_1_r. now rewrite Z.ltb_antisym.
Qed.

Lemma gt_int (a b : Z) : gt (VInt a) (VInt b) = Ret (VBool (b <? a)).
Proof. apply lt_int. Qed.

Lemma clean_date_of_birth_eq (dob : date) (today : date) :
  clean_date_of_birth (Some dob) today =
  if age_on dob today <? 16
  then Invalid "You must be at least 16 years old to register."
  else if 65 <? age_on dob today then Invalid "Age must be realistic."
  else Valid (Some dob).
Proof.
  unfold clean_date_of_birth. cbn [of_date truthy attr_ymd bind].
  fold (age_on dob today). rewrite lt_int, gt_int. unfold raise_if. cbn [truthy].
  reflexivity.
Qed.

(** X4.  [clean_date_of_birth] accepts a date of birth exactly when the
    age it gives today is between 16 and 65; it lets an absent date
    through and never fails otherwise than by a validation error.  So a
    date of birth accepted at registration puts the user in the donor age
    range on that day unless the user is 16 or 17. *)
Theorem clean_date_of_birth_spec (today : date) :
  clean_date_of_birth None today = Valid None /\
  (forall dob,
     (clean_date_of_birth (Some dob) today = Valid (Some dob) <->
        16 <= age_on dob today <= 65) /\
     (forall e, clean_date_of_birth (Some dob) today <> Crashed e)) /\
  (forall u dob,
     date_of_birth u = Some dob ->
     clean_date_of_birth (Some dob) today = Valid (Some dob) ->
     (age_in_range u today <-> 18 <= age_on dob today)).
Proof.
  split; [reflexivity|]. split.
  - intros dob. rewrite clean_date_of_birth_eq.
    destruct (Z.ltb_spec (age_on dob today) 16);
      destruct (Z.ltb_spec 65 (age_on dob today));
      (split; [split; [try discriminate; lia | intros; try reflexivity; lia]
              | intros e; discriminate]).
  - intros u dob Hd. rewrite clean_date_of_birth_eq.
    unfold age_in_range. rewrite get_age_eq, Hd.
    destruct (Z.ltb_spec (age_on dob today) 16); [discriminate|].
    destruct (Z.ltb_spec 65 (age_on dob today)); [discriminate|].
    intros _. split.
    + intros (a & Ha & Hr). injection Ha as <-. lia.
    + intros H18. eexists. split; [reflexivity | lia].
Qed.

(** On 15 June 2024 a date of birth of 1 June 2007 (age 17) is accepted,
    and its owner is not yet in the donor age range. *)
Lemma clean_date_of_birth_spec_witness :
  ~ age_in_range Scenarios.ivan (mkDate 2024 6 15).
Proof.
  intros H.
  apply (proj2 (proj2 (clean_date_of_birth_spec (mkDate 2024 6 15)))
           Scenarios.ivan (mkDate 2007 6 1) eq_refl eq_refl) in H.
  vm_compute in H. apply H. reflexivity.
Defined.

Lemma le_datetime (a b : datetime) :
  le (VDateTime a) (VDateTime b) = Ret (VBool (instant a <=? instant b)).
Proof. reflexivity. Qed.

(** X5.  [clean_needed_by_date] accepts a deadline exactly when it lies
    strictly after [now] (an absent value is let through); a request that
    carries an accepted deadline is not expired at that instant.  A
    deadline equal to [now] is refused although such a request would not
    count as expired. *)
Theorem clean_needed_by_date_spec (now : datetime) :
  clean_needed_by_date None now = Valid None /\
  (forall deadline,
     (clean_needed_by_date (Some deadline) now = Valid (Some deadline) <->
        instant now < instant deadline) /\
     (clean_needed_by_date (Some deadline) now =
        Invalid "The needed by date must be in the future." <->
        instant deadline <= instant now)) /\
  (forall r deadline,
     needed_by_date r = Some deadline ->
     (clean_needed_by_date (Some deadline) now = Valid (Some deadline) ->
      is_expired r now = Ret (VBool false)) /\
     (instant deadline = instant now ->
      clean_needed_by_date (Some deadline) now <> Valid (Some deadline) /\
      is_expired r now = Ret (VBool false))).
Proof.
  assert (E : forall deadline,
             clean_needed_by_date (Some deadline) now =
             if instant deadline <=? instant now
             then Invalid "The needed by date must be in the future."
             else Valid (Some deadline)) by reflexivity.
  split; [reflexivity|]. split.
  - intros deadline. rewrite E.
    destruct (Z.leb_spec (instant deadline) (instant now)); split; split;
      try discriminate; try reflexivity; intros; lia.
  - intros r deadline Hd. rewrite E, is_expired_eq.
    unfold expired_at, datetime_gt. rewrite Hd. split.
    + destruct (Z.leb_spec (instant deadline) (instant now)); [discriminate|].
      intros _. f_equal. f_equal. apply Z.ltb_ge. lia.
    + intros Heq. rewrite Heq, Z.leb_refl, Z.ltb_irrefl.
      split; [discriminate | reflexivity].
Qed.

(** The sample request's deadline, the next day at noon, passes the form
    at noon, and the request is not expired then. *)
Lemma clean_needed_by_date_spec_witness :
  is_expired Samples.request Samples.noon = Ret (VBool false).
Proof.
  apply (proj1 (proj2 (proj2 (clean_needed_by_date_spec Samples.noon))
                  Samples.request Samples.next_noon eq_refl)).
  reflexivity.
Defined.

(** X6.  [clean_last_donation_date] accepts exactly the dates that are
    not after today, today included, and lets an absent date through; for
    an accepted date the number of days [can_donate] counts is not
    negative. *)
Theorem clean_last_donation_date_spec (today : date) :
  clean_last_donation_date None today = Valid None /\
  forall d,
    (clean_last_donation_date (Some d) today = Valid (Some d) <->
       toordinal d <= toordinal today) /\
    (clean_last_donation_date (Some d) today =
       Invalid "Last donation date cannot be in the future." <->
       toordinal today < toordinal d) /\
    (clean_last_donation_date (Some d) today = Valid (Some d) ->
       0 <= sub_days today d).
Proof.
  split; [reflexivity|]. intros d.
  assert (E : clean_last_donation_date (Some d) today =
              if toordinal today <? toordinal d
              then Invalid "Last donation date cannot be in the future."
              else Valid (Some d)) by reflexivity.
  rewrite E. unfold sub_days.
  destruct (Z.ltb_spec (toordinal today) (toordinal d)); repeat split;
    try discriminate; try reflexivity; intros; lia.
Qed.

(** A donation on 5 June 2024 can be recorded on 15 June. *)
Lemma clean_last_donation_date_spec_witness :
  0 <= sub_days (mkDate 2024 6 15) (mkDate 2024 6 5).
Proof.
  apply (proj2 (proj2 (proj2 (clean_last_donation_date_spec (mkDate 2024 6 15))
                         (mkDate 2024 6 5)))).
  reflexivity.
Defined.

Lemma strip_phone_cons (a : ascii) (s : string) :
  strip_phone (String a s) =
  if (Ascii.eqb a "+" || Ascii.eqb a "-" || Ascii.eqb a " ")%bool
  then strip_phone s
  else String a (strip_phone s).
Proof.
  unfold strip_phone. cbn [remove_char].
  destruct (Ascii.eqb a "+"); cbn [orb remove_char]; [reflexivity|].
  destruct (Ascii.eqb a "-"); cbn [orb remove_char]; [reflexivity|].
  destruct (Ascii.eqb a " "); reflexivity.
Qed.

Lemma digit_is_no_separator (a : ascii) :
  is_ascii_digit a = true ->
  (Ascii.eqb a "+" || Ascii.eqb a "-" || Ascii.eqb a " ")%bool = false.
Proof.
  intros H.
  destruct (Ascii.eqb_spec a "+") as [->|_]; [discriminate H|].
  destruct (Ascii.eqb_spec a "-") as [->|_]; [discriminate H|].
  destruct (Ascii.eqb_spec a " ") as [->|_]; [discriminate H|].
  reflexivity.
Qed.

Lemma strip_phone_digits (s : string) :
  all_chars is_ascii_digit (strip_phone s) = all_chars is_phone_char s.
Proof.
  induction s as [|a s IH]; [reflexivity|].
  rewrite strip_phone_cons. cbn [all_chars]. unfold is_phone_char at 1.
  destruct (is_ascii_digit a) eqn:Hd.
  - rewrite (digit_is_no_separator a Hd). cbn [all_chars orb andb].
    now rewrite Hd, IH.
  - cbn [orb].
    destruct (Ascii.eqb a "+" || Ascii.eqb a "-" || Ascii.eqb a " ")%bool eqn:Hs.
    + rewrite IH.
      destruct (Ascii.eqb a "+"), (Ascii.eqb a "-"), (Ascii.eqb a " ");
        try reflexivity; discriminate Hs.
    + cbn [all_chars]. rewrite Hd.
      destruct (Ascii.eqb a "+"), (Ascii.eqb a "-"), (Ascii.eqb a " ");
        try reflexivity; discriminate Hs.
Qed.

Lemma strip_phone_empty (s : string) :
  all_chars is_phone_char s = true ->
  (strip_phone s =? "")%string = negb (has_digit s).
Proof.
  unfold has_digit. rewrite negb_involutive.
  induction s as [|a s IH]; [reflexivity|].
  cbn [all_chars]. intros H. apply andb_true_iff in H as [Ha Hs].
  rewrite strip_phone_cons.
  destruct (is_ascii_digit a) eqn:Hd.
  - now rewrite (digit_is_no_separator a Hd).
  - unfold is_phone_char in Ha. rewrite Hd in Ha. cbn [orb] in Ha.
    rewrite Ha. cbn [negb andb]. now apply IH.
Qed.

(** X7.  For a phone number written in ASCII, [clean_phone_number]
    accepts the empty string and otherwise exactly the numbers made of
    digits, ['+'], ['-'] and spaces that contain at least one digit; a
    number made of separators only is refused. *)
Theorem clean_phone_number_spec (phone : string) :
  is_ascii phone = true ->
  (clean_phone_number phone = Valid phone <->
     phone = "" \/
     (all_chars is_phone_char phone = true /\ has_digit phone = true)) /\
  (clean_phone_number phone <> Valid phone ->
     clean_phone_number phone = Invalid "Please enter a valid phone number.").
Proof.
  intros _. unfold clean_phone_number. fold (strip_phone phone).
  unfold isdigit. rewrite strip_phone_digits.
  destruct (String.eqb_spec phone "") as [->|Hne]; cbn [negb andb].
  { split; [split; auto | intros H; now elim H]. }
  destruct (all_chars is_phone_char phone) eqn:Hall.
  - rewrite (strip_phone_empty phone Hall), negb_involutive, andb_true_r.
    destruct (has_digit phone); cbn [negb]; split.
    + split; [auto | reflexivity].
    + intros H; now elim H.
    + split; [discriminate | intros [H|[_ H]]; [contradiction | discriminate]].
    + reflexivity.
  - rewrite andb_false_r. cbn [negb]. split.
    + split; [discriminate | intros [H|[H _]]; [contradiction | discriminate]].
    + reflexivity.
Qed.

(** ["+880 1711-000000"] is accepted; ["+-"] is not. *)
Lemma clean_phone_number_spec_witness :
  clean_phone_number "+880 1711-000000" = Valid "+880 1711-000000" /\
  clean_phone_number "+-" = Invalid "Please enter a valid phone number.".
Proof.
  split.
  - apply (proj1 (clean_phone_number_spec "+880 1711-000000" eq_refl)).
    right. split; reflexivity.
  - apply (proj2 (clean_phone_number_spec "+-" eq_refl)). discriminate.
Defined.

(** ** Who gets to respond *)

Lemma respond_view_written (db : Database) (now : datetime) (user : principal)
    (method : http_method) (form : ResponseForm) (pk : Z) :
  fst (respond_view db now user method form pk) = db \/
  exists req u,
    In req (blood_requests db) /\ id u <> id (requester req) /\
    fst (respond_view db now user method form pk) =
    with_responses db
      (mkResponse (request_id req) (id u) (form_response form)
         (form_message form) (form_donor_phone form)
         (form_preferred_contact_time form) now :: responses db).
Proof.
  unfold respond_view.
  destruct (get_blood_request db pk) as [req|] eqn:Hreq; [|now left].
  destruct (can_accept req (Some user) now) as [ok|e] eqn:Hacc; [|now left].
  destruct (truthy ok) eqn:Hok; cbn [negb]; [|now left].
  assert (Ht : returns_truthy (can_accept req (Some user) now))
    by (rewrite Hacc; now apply returns_truthy_ret).
  apply can_accept_iff in Ht. destruct Ht as (u & Hu & Hne & _).
  injection Hu as ->.
  destruct (response_exists (responses db) (request_id req) (id u)) eqn:Hex;
    [now left|].
  destruct method; [now left|].
  destruct (form_is_valid form); [|now left].
  cbv zeta. unfold insert_response. cbn [blood_request donor]. rewrite Hex.
  right. exists req, u. split; [|split; [exact Hne | reflexivity]].
  unfold get_blood_request in Hreq. now apply find_some in Hreq.
Qed.

Lemma respond_view_decided (db : Database) (now : datetime) (user : principal)
    (method : http_method) (form : ResponseForm) (pk : Z) :
  (fst (respond_view db now user method form pk) = db /\
   ~ exists req u, respond_allowed db now user method form pk req u) \/
  exists req u,
    respond_allowed db now user method form pk req u /\
    fst (respond_view db now user method form pk) =
    with_responses db
      (mkResponse (request_id req) (id u) (form_response form)
         (form_message form) (form_donor_phone form)
         (form_preferred_contact_time form) now :: responses db).
Proof.
  unfold respond_view.
  destruct (get_blood_request db pk) as [req|] eqn:Hreq.
  2:{ left. split; [reflexivity|]. intros (r & u & H & _). congruence. }
  destruct (can_accept req (Some user) now) as [ok|e] eqn:Hacc.
  2:{ left. split; [reflexivity|].
      intros (r & u & Hr & -> & _ & _ & H1 & H2 & H3 & H4 & H5 & _).
      rewrite Hreq in Hr. injection Hr as <-.
      assert (Ht : returns_truthy (can_accept req (Some (LoggedIn u)) now))
        by (apply can_accept_iff; exists u; auto 8).
      destruct Ht as (v & Hv & _). congruence. }
  destruct (truthy ok) eqn:Hok; cbn [negb].
  2:{ left. split; [reflexivity|].
      intros (r & u & Hr & -> & _ & _ & H1 & H2 & H3 & H4 & H5 & _).
      rewrite Hreq in Hr. injection Hr as <-.
      assert (Ht : returns_truthy (can_accept req (Some (LoggedIn u)) now))
        by (apply can_accept_iff; exists u; auto 8).
      destruct Ht as (v & Hv & Hv'). congruence. }
  assert (Ht : returns_truthy (can_accept req (Some user) now))
    by (rewrite Hacc; now apply returns_truthy_ret).
  apply can_accept_iff in Ht.
  destruct Ht as (u & Hu & Hid & Hel & Hbg & Hst & Hex).
  injection Hu as ->.
  destruct (response_exists (responses db) (request_id req) (id u)) eqn:Hre.
  { left. split; [reflexivity|].
    intros (r & u' & Hr & Hu' & _ & _ & _ & _ & _ & _ & _ & H).
    rewrite Hreq in Hr. injection Hr as <-. injection Hu' as <-. congruence. }
  destruct method.
  { left. split; [reflexivity|]. intros (r & u' & _ & _ & H & _). discriminate. }
  destruct (form_is_valid form) eqn:Hv.
  2:{ left. split; [reflexivity|].
      intros (r & u' & _ & _ & _ & H & _). congruence. }
  cbv zeta. unfold insert_response. cbn [blood_request donor]. rewrite Hre.
  right. exists req, u. split; [|reflexivity].
  unfold respond_allowed. auto 12.
Qed.

Lemma longer_list_differs {A} (x : A) (l : list A) : x :: l <> l.
Proof.
  intros H. apply (f_equal (@List.length A)) in H. cbn in H. lia.
Qed.

(** X8.  The response view stores a response exactly in the allowed case:
    a [POST] with a valid form from a logged-in user who is not the
    requester, is an eligible donor with the needed blood group and has not
    responded before, for an ['ACTIVE'] request that is not expired.  In
    that case it adds that one row and changes nothing else; in every other
    case it leaves the database as it was. *)
Theorem respond_view_writes_only_when_allowed (db : Database) (now : datetime)
    (user : principal) (method : http_method) (form : ResponseForm) (pk : Z) :
  (responses (fst (respond_view db now user method form pk)) <> responses db
   <-> exists req u, respond_allowed db now user method form pk req u) /\
  (forall req u,
     respond_allowed db now user method form pk req u ->
     fst (respond_view db now user method form pk) =
     with_responses db
       (mkResponse (request_id req) (id u) (form_response form)
          (form_message form) (form_donor_phone form)
          (form_preferred_contact_time form) now :: responses db)) /\
  ((~ exists req u, respond_allowed db now user method form pk req u) ->
   fst (respond_view db now user method form pk) = db).
Proof.
  destruct (respond_view_decided db now user method form pk)
    as [[E Hno] | (req & u & Hal & E)].
  - rewrite E. split; [|split].
    + split; [intros H; now elim H | intros H; now elim Hno].
    + intros req u Hal. elim Hno. eauto.
    + reflexivity.
  - rewrite E. cbn [responses with_responses]. split; [|split].
    + split; [eauto | intros _; apply longer_list_differs].
    + intros req' u' Hal'.
      destruct Hal as (Hr & Hu & _), Hal' as (Hr' & Hu' & _).
      rewrite Hr in Hr'. injection Hr' as <-.
      rewrite Hu in Hu'. injection Hu' as <-. reflexivity.
    + intros Hno. elim Hno. eauto.
Qed.

(** Bob's posted acceptance of the sample request is stored. *)
Lemma respond_view_writes_only_when_allowed_witness :
  respond_allowed Samples.database Samples.noon (LoggedIn Samples.bob) POST
    Samples.accept_form 10 Samples.request Samples.bob /\
  fst (respond_view Samples.database Samples.noon (LoggedIn Samples.bob) POST
         Samples.accept_form 10) =
  with_responses Samples.database
    [mkResponse 10 2 "ACCEPTED" "On my way" "0123456789" "any time"
       Samples.noon].
Proof.
  assert (Hal : respond_allowed Samples.database Samples.noon
                  (LoggedIn Samples.bob) POST Samples.accept_form 10
                  Samples.request Samples.bob).
  { unfold respond_allowed.
    do 4 (split; [reflexivity|]). split; [discriminate|].
    split; [exists (VBool true); split; reflexivity|].
    repeat split; reflexivity. }
  split; [exact Hal|].
  apply (proj1 (proj2 (respond_view_writes_only_when_allowed Samples.database
                         Samples.noon (LoggedIn Samples.bob) POST
                         Samples.accept_form 10))
           Samples.request Samples.bob Hal).
Defined.

(** ** Verification and the donor list *)

(** X9.  Until the verification link is followed, a user is in nobody's
    list of compatible donors; following it puts the user's row in the
    list of a request exactly when the blood group is the one needed, the
    user is a donor, is available and did not post the request. *)
Theorem verification_opens_donor_list (db : Database) (token : Z)
    (now : datetime) (u : User) (r : BloodRequest) :
  get_user_by_token (users db) token = Ret u ->
  is_email_verified u = false ->
  let db' := fst (email_verification_view db token now) in
  let u' := set_updated_at (set_is_email_verified u true) now in
  ~ In u (get_compatible_donors (users db) r) /\
  In u' (users db') /\
  (In u' (get_compatible_donors (users db') r) <->
     blood_group u = blood_group_needed r /\
     is_donor u = true /\
     is_available_for_donation u = true /\
     id u <> id (requester r)).
Proof.
  intros Hu Hv. cbv zeta.
  assert (Hin : In u (users db)) by (apply get_user_by_token_In in Hu; tauto).
  assert (Hin' : In (set_updated_at (set_is_email_verified u true) now)
                   (users (fst (email_verification_view db token now)))).
  { unfold email_verification_view. rewrite Hu, Hv. cbn [negb fst save_user users].
    apply in_map_iff. exists u. split; [|exact Hin].
    cbn [id set_is_email_verified set_updated_at]. now rewrite Z.eqb_refl. }
  split; [|split; [exact Hin'|]].
  - unfold get_compatible_donors. rewrite !filter_In, Hv.
    cbn [Bool.eqb]. rewrite !andb_false_r. intros [[_ H] _]. discriminate.
  - unfold get_compatible_donors. rewrite !filter_In.
    cbn [blood_group is_donor is_available_for_donation is_email_verified id
         set_updated_at set_is_email_verified].
    rewrite !andb_true_iff, negb_true_iff, Z.eqb_neq, String.eqb_eq.
    rewrite !eqb_true_iff. tauto.
Qed.

(** Frank (A-, a donor, available) appears for a request for A- once he
    has followed his link. *)
Lemma verification_opens_donor_list_witness :
  let db := mkDatabase [Samples.frank] [] [] [] in
  let r := mkBloodRequest 12 Samples.alice "A. Patient" "A-" 1 "LOW"
             (Some Samples.next_noon) "ACTIVE" true in
  In (set_updated_at (set_is_email_verified Samples.frank true) Samples.noon)
     (get_compatible_donors
        (users (fst (email_verification_view db 1006 Samples.noon))) r).
Proof.
  cbv zeta.
  apply (proj2 (proj2 (verification_opens_donor_list
                         (mkDatabase [Samples.frank] [] [] []) 1006
                         Samples.noon Samples.frank
                         (mkBloodRequest 12 Samples.alice "A. Patient" "A-" 1
                            "LOW" (Some Samples.next_noon) "ACTIVE" true)
                         eq_refl eq_refl))).
  repeat split; try reflexivity. discriminate.
Defined.

(** ** Profiles *)

Lemma touch_all_other (uid other : Z) (now : datetime)
    (table : list UserProfile) :
  other <> uid ->
  profiles_of other
    (map (fun p => if profile_user p =? uid then touch_profile p now else p)
       table) =
  profiles_of other table.
Proof.
  intros Hne. unfold profiles_of.
  induction table as [|p table IH]; [reflexivity|]. cbn [map filter].
  destruct (Z.eqb_spec (profile_user p) uid) as [E|E].
  - cbn [touch_profile profile_user]. rewrite E.
    destruct (Z.eqb_spec uid other); [congruence | exact IH].
  - destruct (profile_user p =? other); [now rewrite IH | exact IH].
Qed.

Lemma touch_all_length (uid : Z) (now : datetime) (table : list UserProfile) :
  List.length (profiles_of uid
            (map (fun p => if profile_user p =? uid then touch_profile p now
                           else p) table)) =
  List.length (profiles_of uid table).
Proof.
  unfold profiles_of.
  induction table as [|p table IH]; [reflexivity|]. cbn [map filter].
  destruct (Z.eqb_spec (profile_user p) uid) as [E|E].
  - cbn [touch_profile profile_user]. rewrite E, Z.eqb_refl. cbn [List.length].
    now rewrite IH.
  - destruct (Z.eqb_spec (profile_user p) uid); [contradiction | exact IH].
Qed.

Lemma no_profile_yet (uid : Z) (table : list UserProfile) :
  existsb (fun p => profile_user p =? uid) table = false ->
  profiles_of uid table = [].
Proof.
  unfold profiles_of. induction table as [|p table IH]; [reflexivity|].
  cbn [existsb filter]. intros H. apply orb_false_iff in H as [Hp Ht].
  rewrite Hp. now apply IH.
Qed.

Lemma some_profile (uid : Z) (table : list UserProfile) :
  existsb (fun p => profile_user p =? uid) table = true ->
  (1 <= List.length (profiles_of uid table))%nat.
Proof.
  unfold profiles_of. induction table as [|p table IH]; [discriminate|].
  cbn [existsb filter]. destruct (profile_user p =? uid); cbn [orb List.length].
  - intros _. apply le_n_S, Nat.le_0_l.
  - exact IH.
Qed.

(** X10.  Saving a user always leaves the user with a profile that was
    written at that moment: an existing profile is saved again with its
    counters and preferences intact, and only a user without any gets a
    new one.  The number of profiles of the user stays what it was (one,
    if it was none), and the profiles of other users are not touched. *)
Theorem save_user_profile_keeps_one_profile (table : list UserProfile)
    (u : User) (now : datetime) :
  let table' := save_user_profile table u now in
  (exists p, In p table' /\ profile_user p = id u /\
             profile_updated_at p = now) /\
  List.length (profiles_of (id u) table') =
    Nat.max 1 (List.length (profiles_of (id u) table)) /\
  (forall other, other <> id u ->
     profiles_of other table' = profiles_of other table) /\
  (forall p, In p table -> profile_user p = id u ->
     In (touch_profile p now) table').
Proof.
  cbv zeta. unfold save_user_profile.
  destruct (existsb (fun p => profile_user p =? id u) table) eqn:Hex.
  - split; [|split; [|split]].
    + apply existsb_exists in Hex as (p & Hin & Hp). apply Z.eqb_eq in Hp.
      exists (touch_profile p now). split; [|split; [exact Hp | reflexivity]].
      apply in_map_iff. exists p. split; [|exact Hin].
      rewrite Hp. now rewrite Z.eqb_refl.
    + rewrite touch_all_length. apply some_profile in Hex.
      symmetry. now apply Nat.max_r.
    + intros other Hne. now apply touch_all_other.
    + intros p Hin Hp. apply in_map_iff. exists p. split; [|exact Hin].
      rewrite Hp. now rewrite Z.eqb_refl.
  - split; [|split; [|split]].
    + eexists. split; [left; reflexivity|]. split; reflexivity.
    + unfold profiles_of at 1. cbn [filter profile_user].
      rewrite Z.eqb_refl. fold (profiles_of (id u) table).
      now rewrite (no_profile_yet _ _ Hex).
    + intros other Hne. unfold profiles_of at 1. cbn [filter profile_user].
      destruct (Z.eqb_spec (id u) other); [congruence | reflexivity].
    + intros p Hin Hp.
      assert (existsb (fun p => profile_user p =? id u) table = true).
      { apply existsb_exists. exists p. split; [exact Hin|].
        now apply Z.eqb_eq. }
      congruence.
Qed.

(** ** Registration *)

Lemma email_exists_iff (table : list User) (address : string) :
  email_exists table address = true <-> In address (map email table).
Proof.
  unfold email_exists. rewrite existsb_exists, in_map_iff. split.
  - intros (u & Hin & He). apply String.eqb_eq in He. eauto.
  - intros (u & He & Hin). exists u. split; [exact Hin|].
    now apply String.eqb_eq.
Qed.

Lemma save_fresh_row (table : list User) (u : User) :
  ~ In (id u) (map id table) ->
  map (fun r => if id r =? id u then u else r) table = table.
Proof.
  induction table as [|r table IH]; [reflexivity|]. cbn [map In].
  intros H. destruct (Z.eqb_spec (id r) (id u)) as [E|E]; [tauto|].
  f_equal. apply IH. tauto.
Qed.

Lemma register_view_users (db : Database) (f : RegistrationForm)
    (today : date) (now : datetime) (pk token : Z) :
  ~ In pk (map id (users db)) ->
  registration_form_is_valid (users db) f today = true ->
  users (fst (register_view db f today now pk token)) =
  new_user f pk token now :: users db.
Proof.
  intros Hfresh Hv. unfold register_view. rewrite Hv.
  cbn [fst save_user insert_user users map].
  change (set_updated_at (new_user f pk token now) now)
    with (new_user f pk token now).
  change (id (new_user f pk token now)) with pk.
  rewrite Z.eqb_refl. f_equal.
  apply (save_fresh_row (users db) (new_user f pk token now)). exact Hfresh.
Qed.

Lemma registration_valid_parts (table : list User) (f : RegistrationForm)
    (today : date) :
  registration_form_is_valid table f today = true ->
  email_exists table (reg_email f) = false /\
  (exists dob, reg_date_of_birth f = Some dob /\
               16 <= age_on dob today <= 65) /\
  is_choice BLOOD_GROUP_CHOICES (reg_blood_group f) = true /\
  weight_field_valid (reg_weight f) = true.
Proof.
  unfold registration_form_is_valid. rewrite !andb_true_iff.
  intros ((((((((( _ & He) & _) & _) & _) & _) & Hd) & Hb) & Hw) & _).
  split; [|split; [|split; assumption]].
  - unfold clean_email in He. now destruct (email_exists table (reg_email f)).
  - destruct (reg_date_of_birth f) as [dob|]; [|discriminate].
    exists dob. split; [reflexivity|].
    rewrite clean_date_of_birth_eq in Hd.
    destruct (Z.ltb_spec (age_on dob today) 16); [discriminate|].
    destruct (Z.ltb_spec 65 (age_on dob today)); [discriminate|]. lia.
Qed.












(** ** The availability switch *)

Lemma saved_rows (db : Database) (u : User) (now : datetime) (row : User) :
  In row (users (save_user db u now)) ->
  (id row = id u /\ row = set_updated_at u now) \/
  (id row <> id u /\ In row (users db)).
Proof.
  cbn [save_user users]. intros H. apply in_map_iff in H as (r & Hr & Hin).
  destruct (Z.eqb_spec (id r) (id u)) as [E|E].
  - left. subst row. split; reflexivity.
  - right. subst row. split; assumption.
Qed.

(** X13.  [update_donation_status] changes nothing for an anonymous
    visitor or on a [GET].  On a [POST] with any value other than
    ["true"] (or none) the user's row is stored as unavailable; from then on
    [can_donate] is [False] for it on every day, [can_accept] is false for
    it on every request, and it is in no request's list of compatible
    donors.  Rows of other users are untouched. *)
Theorem switching_availability_off (db : Database) (u : User)
    (posted : option string) (now : datetime) :
  posted <> Some "true" ->
  let db' := fst (update_donation_status db (LoggedIn u) POST posted now) in
  (forall row, In row (users db') -> id row = id u ->
     is_available_for_donation row = false /\
     (forall today, can_donate row today = Ret (VBool false)) /\
     (forall r later,
        returns_falsy (can_accept r (Some (LoggedIn row)) later)) /\
     (forall r, ~ In row (get_compatible_donors (users db') r))) /\
  (forall row, id row <> id u -> (In row (users db') <-> In row (users db))) /\
  fst (update_donation_status db (LoggedIn u) GET posted now) = db /\
  fst (update_donation_status db AnonymousUser POST posted now) = db.
Proof.
  intros Hp. cbv zeta.
  assert (Hs : match posted with
               | Some s => (s =? "true")%string
               | None => false
               end = false).
  { destruct posted as [s|]; [|reflexivity].
    destruct (String.eqb_spec s "true"); [subst; now elim Hp | reflexivity]. }
  cbn [update_donation_status fst]. rewrite Hs.
  split; [|split; [|split; reflexivity]].
  - intros row Hin Hid. apply saved_rows in Hin as [[_ ->] | [Hne _]];
      [|contradiction].
    assert (Hc : forall today,
               can_donate
                 (set_updated_at (set_is_available_for_donation u false) now)
                 today = Ret (VBool false)).
    { intros today. rewrite can_donate_eq.
      cbn [is_available_for_donation set_updated_at
           set_is_available_for_donation]. now rewrite andb_false_r. }
    split; [reflexivity|]. split; [exact Hc|]. split.
    + intros r later. apply returns_cases; [apply can_accept_returns|].
      intros Ht. apply can_accept_iff in Ht.
      destruct Ht as (u' & Hu' & _ & He & _). injection Hu' as <-.
      apply eligible_iff in He. destruct He as (_ & _ & _ & He).
      rewrite Hc in He. discriminate.
    + intros r Hin. unfold get_compatible_donors in Hin.
      rewrite !filter_In in Hin. destruct Hin as [[_ H] _].
      cbn [is_available_for_donation set_updated_at
           set_is_available_for_donation Bool.eqb] in H.
      rewrite andb_false_r in H. discriminate.
  - intros row Hne. cbn [save_user users]. rewrite in_map_iff. split.
    + intros (r & Hr & Hin).
      destruct (Z.eqb_spec (id r) (id (set_is_available_for_donation u false))).
      * subst row. now elim Hne.
      * now subst row.
    + intros Hin. exists row. split; [|exact Hin].
      destruct (Z.eqb_spec (id row) (id (set_is_available_for_donation u false)));
        [now elim Hne | reflexivity].
Qed.

(** Bob switches himself off and drops out of the sample request's list
    of compatible donors. *)
Lemma switching_availability_off_witness :
  let db' := fst (update_donation_status Samples.database
                    (LoggedIn Samples.bob) POST (Some "false") Samples.noon) in
  let row := set_updated_at
               (set_is_available_for_donation Samples.bob false)
               Samples.noon in
  In row (users db') /\
  ~ In row (get_compatible_donors (users db') Samples.request).
Proof.
  cbv zeta.
  assert (Hin : In (set_updated_at
                      (set_is_available_for_donation Samples.bob false)
                      Samples.noon)
                  (users (fst (update_donation_status Samples.database
                                 (LoggedIn Samples.bob) POST (Some "false")
                                 Samples.noon))))
    by (right; left; reflexivity).
  split; [exact Hin|].
  apply (proj1 (switching_availability_off Samples.database Samples.bob
                  (Some "false") Samples.noon ltac:(discriminate))
           _ Hin eq_refl).
Defined.

(** ** Deleting a request *)

Lemma get_own_request_sound (db : Database) (u : User) (pk : Z)
    (req : BloodRequest) :
  get_own_request db u pk = Some req ->
  In req (blood_requests db) /\ request_id req = pk /\
  id (requester req) = id u.
Proof.
  unfold get_own_request, own_requests. intros H.
  apply find_some in H as [Hin Hpk]. apply filter_In in Hin as [Hin Ho].
  apply Z.eqb_eq in Hpk, Ho. tauto.
Qed.

Lemma get_own_request_none (db : Database) (u : User) (pk : Z) :
  (forall r, In r (blood_requests db) -> request_id r = pk ->
             id (requester r) <> id u) ->
  get_own_request db u pk = None.
Proof.
  intros H. unfold get_own_request, own_requests.
  destruct (find _ _) as [req|] eqn:E; [|reflexivity].
  apply find_some in E as [Hin Hpk]. apply filter_In in Hin as [Hin Ho].
  apply Z.eqb_eq in Hpk, Ho. now elim (H req Hin Hpk).
Qed.

(** X14.  Only the user who posted a request can delete it: for an
    anonymous visitor, on a [GET], and for a user who posted no request
    with that key, [BloodRequestDeleteView] leaves the database as it is
    (the last with "not found").  The owner's [POST] removes the request
    and the responses to it and nothing else, so that no response is left
    without its request and the (request, donor) pairs stay distinct. *)
Theorem delete_request_view_owner_only (db : Database) (user : principal)
    (method : http_method) (pk : Z) :
  let db' := fst (delete_request_view db user method pk) in
  (user = AnonymousUser \/ method = GET -> db' = db) /\
  (forall u, user = LoggedIn u ->
     (forall r, In r (blood_requests db) -> request_id r = pk ->
                id (requester r) <> id u) ->
     delete_request_view db user method pk = (db, PageNotFound)) /\
  (forall u req, user = LoggedIn u -> method = POST ->
     get_own_request db u pk = Some req ->
     id (requester req) = id u /\
     (forall r, In r (blood_requests db') <->
                In r (blood_requests db) /\ request_id r <> pk) /\
     (forall x, In x (responses db') <->
                In x (responses db) /\ blood_request x <> pk) /\
     users db' = users db) /\
  (unique_responses db -> unique_responses db') /\
  (responses_attached db -> responses_attached db').
Proof.
  cbv zeta.
  assert (Hcases :
            fst (delete_request_view db user method pk) = db \/
            fst (delete_request_view db user method pk) = delete_request db pk).
  { unfold delete_request_view. destruct user as [|u]; [now left|].
    destruct (get_own_request db u pk) as [req|] eqn:E; [|now left].
    destruct method; [now left|]. right.
    apply get_own_request_sound in E as (_ & -> & _). reflexivity. }
  split; [|split; [|split; [|split]]].
  - unfold delete_request_view. intros [-> | ->]; [reflexivity|].
    destruct user as [|u]; [reflexivity|].
    now destruct (get_own_request db u pk).
  - intros u -> Hno. unfold delete_request_view.
    now rewrite (get_own_request_none db u pk Hno).
  - intros u req -> -> Hown. unfold delete_request_view. rewrite Hown.
    apply get_own_request_sound in Hown as (_ & Hpk & Ho). rewrite Hpk.
    cbn [fst delete_request blood_requests responses users].
    split; [exact Ho|]. split; [|split; [|reflexivity]].
    + intros r. rewrite filter_In, negb_true_iff, Z.eqb_neq. tauto.
    + intros x. rewrite filter_In, negb_true_iff, Z.eqb_neq. tauto.
  - intros Hu. destruct Hcases as [-> | ->]; [exact Hu|].
    unfold unique_responses. cbn [delete_request responses].
    now apply delete_keeps_keys_distinct.
  - intros Ha. destruct Hcases as [-> | ->]; [exact Ha|].
    intros x Hx. cbn [delete_request responses] in Hx.
    apply filter_In in Hx as [Hx Hne].
    apply negb_true_iff, Z.eqb_neq in Hne.
    destruct (Ha x Hx) as (r & Hr & Hid). exists r.
    split; [|exact Hid]. cbn [delete_request blood_requests].
    apply filter_In. split; [exact Hr|].
    apply negb_true_iff, Z.eqb_neq. congruence.
Qed.

(** Bob cannot delete Alice's request; Alice can. *)
Lemma delete_request_view_owner_only_witness :
  delete_request_view Samples.database (LoggedIn Samples.bob) POST 10 =
    (Samples.database, PageNotFound) /\
  blood_requests
    (fst (delete_request_view Samples.database (LoggedIn Samples.alice)
            POST 10)) = [].
Proof.
  split.
  - apply (proj1 (proj2 (delete_request_view_owner_only Samples.database
                           (LoggedIn Samples.bob) POST 10))
             Samples.bob eq_refl).
    intros r [<- | []] _. discriminate.
  - reflexivity.
Defined.

(** ** Posting a request and answering it *)

Lemma respond_view_adds_row (db : Database) (now : datetime) (u : User)
    (form : ResponseForm) (pk : Z) (req : BloodRequest) :
  get_blood_request db pk = Some req ->
  returns_truthy (can_accept req (Some (LoggedIn u)) now) ->
  response_exists (responses db) (request_id req) (id u) = false ->
  form_is_valid form = true ->
  responses (fst (respond_view db now (LoggedIn u) POST form pk)) =
  mkResponse (request_id req) (id u) (form_response form)
    (form_message form) (form_donor_phone form)
    (form_preferred_contact_time form) now :: responses db.
Proof.
  intros Hreq (ok & Hok & Ht) Hex Hvalid.
  unfold respond_view, insert_response.
  rewrite Hreq, Hok, Ht. cbn [negb].
  rewrite Hex, Hvalid. cbv zeta. cbn [blood_request donor].
  rewrite Hex. reflexivity.
Qed.

(** X15.  A request posted through [BloodRequestCreateView] belongs to
    the user who posted it, is ['ACTIVE'] and is not expired at that
    moment.  Its author can never accept it, while any other eligible
    donor with the needed blood group can at once, and that donor's valid
    [POST] to the response view stores the response. *)
Theorem posted_request_can_be_answered (db : Database) (author : User)
    (f : BloodRequestFormData) (now : datetime) (pk : Z) :
  blood_request_form_is_valid f now = true ->
  let db' := fst (create_request_view db (LoggedIn author) f now pk) in
  exists req,
    get_blood_request db' pk = Some req /\
    blood_requests db' = req :: blood_requests db /\
    requester req = author /\ status req = "ACTIVE" /\
    is_expired req now = Ret (VBool false) /\
    (forall later,
       returns_falsy (can_accept req (Some (LoggedIn author)) later)) /\
    (forall donor form,
       id donor <> id author ->
       returns_truthy (is_eligible_donor donor (dt_date now)) ->
       blood_group donor = brf_blood_group_needed f ->
       response_exists (responses db) pk (id donor) = false ->
       form_is_valid form = true ->
       returns_truthy (can_accept req (Some (LoggedIn donor)) now) /\
       responses (fst (respond_view db' now (LoggedIn donor) POST form pk)) =
       mkResponse pk (id donor) (form_response form) (form_message form)
         (form_donor_phone form) (form_preferred_contact_time form) now
       :: responses db).
Proof.
  intros Hv. cbv zeta. unfold create_request_view. rewrite Hv. cbv zeta.
  set (req := mkBloodRequest pk author (brf_patient_name f)
                (brf_blood_group_needed f) (brf_units_needed f)
                (brf_urgency f) (brf_needed_by_date f) "ACTIVE"
                (brf_is_public f)).
  cbn [fst blood_requests responses].
  assert (Hx : is_expired req now = Ret (VBool false)).
  { unfold blood_request_form_is_valid in Hv.
    rewrite !andb_true_iff in Hv. destruct Hv as (((_ & _) & Hd) & _).
    rewrite is_expired_eq. unfold expired_at, datetime_gt.
    cbn [needed_by_date req].
    destruct (brf_needed_by_date f) as [d|]; [|discriminate].
    change (clean_needed_by_date (Some d) now)
      with (if instant d <=? instant now
            then @Invalid (option datetime)
                   "The needed by date must be in the future."
            else Valid (Some d)) in Hd.
    destruct (Z.leb_spec (instant d) (instant now)); [discriminate|].
    f_equal. f_equal. apply Z.ltb_ge. lia. }
  assert (Hget : get_blood_request
                   (mkDatabase (users db) (req :: blood_requests db)
                      (responses db) (profiles db)) pk = Some req).
  { unfold get_blood_request. cbn [blood_requests find request_id req].
    now rewrite Z.eqb_refl. }
  exists req. split; [exact Hget|].
  split; [reflexivity|]. split; [reflexivity|]. split; [reflexivity|].
  split; [exact Hx|]. split.
  - intros later. apply returns_cases; [apply can_accept_returns|].
    intros Ht. apply can_accept_iff in Ht.
    destruct Ht as (u' & Hu' & Hne & _). injection Hu' as <-.
    now elim Hne.
  - intros donor form Hne Hel Hbg Hre Hform.
    assert (Hacc : returns_truthy (can_accept req (Some (LoggedIn donor)) now)).
    { apply can_accept_iff. exists donor. repeat split; assumption. }
    split; [exact Hacc|].
    apply (respond_view_adds_row _ now donor form pk req Hget Hacc);
      assumption.
Qed.

(** Alice posts her request; Bob answers it. *)
Lemma posted_request_can_be_answered_witness :
  let db' := fst (create_request_view Scenarios.users_only
                    (LoggedIn Samples.alice) Scenarios.alice_form
                    Samples.noon 10) in
  responses (fst (respond_view db' Samples.noon (LoggedIn Samples.bob) POST
                    Samples.accept_form 10)) =
  [mkResponse 10 2 "ACCEPTED" "On my way" "0123456789" "any time"
     Samples.noon].
Proof.
  cbv zeta.
  destruct (posted_request_can_be_answered Scenarios.users_only Samples.alice
              Scenarios.alice_form Samples.noon 10 eq_refl)
    as (req & _ & _ & _ & _ & _ & _ & Hanswer).
  apply (Hanswer Samples.bob Samples.accept_form).
  - discriminate.
  - exists (VBool true). split; reflexivity.
  - reflexivity.
  - reflexivity.
  - reflexivity.
Defined.

(** ** Searching *)

Lemma given_nonempty (s : string) : s <> "" -> given (Some s) = Some s.
Proof.
  intros H. unfold given. destruct (String.eqb_spec s ""); [contradiction|].
  reflexivity.
Qed.

Lemma donor_search_In (address_icontains : User -> string -> bool)
    (table : list User) (g l : option string) (u : User) :
  In u (donor_search address_icontains table g l) <->
  In u table /\ is_email_verified u = true /\ is_donor u = true /\
  is_available_for_donation u = true /\
  (forall s, given g = Some s -> blood_group u = s) /\
  (forall s, given l = Some s -> address_icontains u s = true).
Proof.
  unfold donor_search. cbv zeta.
  destruct (given g) as [s|], (given l) as [s'|];
    rewrite ?filter_In, !andb_true_iff, ?String.eqb_eq, !eqb_true_iff;
    (split;
     [ intros H; decompose [and] H; clear H; repeat split; trivial;
       intros ? E; first [now injection E as <- | discriminate E]
     | intros (H1 & H2 & H3 & H4 & H5 & H6); repeat split; auto ]).
Qed.

(** X16.  The compatible donors of a request are exactly the users the
    donor search returns for the needed blood group, the requester
    excepted.  Whatever is asked, the search returns only verified,
    available donors; a filter only narrows the result, and an empty
    parameter filters nothing. *)
Theorem compatible_donors_are_search_results
    (address_icontains : User -> string -> bool) (table : list User)
    (r : BloodRequest) :
  blood_group_needed r <> "" ->
  (forall u,
     In u (get_compatible_donors table r) <->
     In u (donor_search address_icontains table
             (Some (blood_group_needed r)) None) /\
     id u <> id (requester r)) /\
  (forall g l u,
     In u (donor_search address_icontains table g l) ->
     In u (donor_search address_icontains table None None) /\
     is_email_verified u = true /\ is_donor u = true /\
     is_available_for_donation u = true) /\
  (forall l,
     donor_search address_icontains table (Some "") l =
     donor_search address_icontains table None l).
Proof.
  intros Hne. split; [|split].
  - intros u. rewrite donor_search_In, (given_nonempty _ Hne).
    cbn [given]. unfold get_compatible_donors. rewrite !filter_In.
    rewrite !andb_true_iff, negb_true_iff, Z.eqb_neq, String.eqb_eq.
    rewrite !eqb_true_iff. split.
    + intros ((H1 & ((H2 & H3) & H4) & H5) & H6).
      repeat split; trivial; intros s E; [now injection E as <- | discriminate].
    + intros ((H1 & H2 & H3 & H4 & H5 & _) & H6).
      repeat split; trivial. now apply H5.
  - intros g l u H. apply donor_search_In in H as (H1 & H2 & H3 & H4 & _).
    split; [|tauto]. apply donor_search_In. cbn [given].
    repeat split; trivial; intros s E; discriminate E.
  - intros l. reflexivity.
Qed.

(** Bob is found by a search for O+ and is a compatible donor of the
    sample request. *)
Lemma compatible_donors_are_search_results_witness :
  In Samples.bob (get_compatible_donors Samples.everyone Samples.request).
Proof.
  apply (proj1 (compatible_donors_are_search_results (fun _ _ => true)
                  Samples.everyone Samples.request ltac:(discriminate))
           Samples.bob).
  split; [vm_compute; tauto | discriminate].
Defined.

Lemma In_firstn {A} (n : nat) (l : list A) (x : A) :
  In x (firstn n l) -> In x l.
Proof.
  intros H. rewrite <- (firstn_skipn n l). apply in_or_app. now left.
Qed.

Lemma matching_requests_In (db : Database) (user : User) (r : BloodRequest) :
  In r (matching_requests db user) <->
  In r (blood_requests db) /\ status r = "ACTIVE" /\ is_public r = true /\
  id (requester r) <> id user /\ blood_group_needed r = blood_group user.
Proof.
  unfold matching_requests. rewrite !filter_In.
  rewrite andb_true_iff, negb_true_iff, Z.eqb_neq, !String.eqb_eq, eqb_true_iff.
  tauto.
Qed.

(** X17.  Every request the dashboard offers is a public, ['ACTIVE']
    request of somebody else for the user's blood group, and there are at
    most five; the user can accept such a request exactly when the user
    is an eligible donor and the request is not expired (the dashboard
    checks neither).  When no more than five requests match, every public
    request the user can accept is among those offered. *)
Theorem dashboard_offers (db : Database) (user : User) (now : datetime) :
  (List.length (available_requests db user) <= 5)%nat /\
  (forall r, In r (available_requests db user) ->
     In r (blood_requests db) /\ status r = "ACTIVE" /\ is_public r = true /\
     id (requester r) <> id user /\
     blood_group_needed r = blood_group user /\
     (returns_truthy (can_accept r (Some (LoggedIn user)) now) <->
        returns_truthy (is_eligible_donor user (dt_date now)) /\
        is_expired r now = Ret (VBool false))) /\
  ((List.length (matching_requests db user) <= 5)%nat ->
   forall r, In r (blood_requests db) -> is_public r = true ->
     returns_truthy (can_accept r (Some (LoggedIn user)) now) ->
     In r (available_requests db user)).
Proof.
  change (available_requests db user)
    with (firstn 5 (matching_requests db user)).
  split; [apply firstn_le_length|]. split.
  - intros r Hin. apply In_firstn, matching_requests_In in Hin.
    destruct Hin as (H1 & H2 & H3 & H4 & H5).
    do 5 (split; [assumption|]). rewrite can_accept_iff. split.
    + intros (u & Hu & _ & He & _ & _ & Hx). injection Hu as <-. tauto.
    + intros (He & Hx). exists user. repeat split; auto.
  - intros Hlen r Hin Hpub Hacc. rewrite firstn_all2 by exact Hlen.
    apply can_accept_iff in Hacc.
    destruct Hacc as (u & Hu & Hne & _ & Hbg & Hs & _). injection Hu as <-.
    apply matching_requests_In. repeat split; auto.
Qed.

(** The sample request is offered to Bob, who can accept it at noon. *)
Lemma dashboard_offers_witness :
  In Samples.request (available_requests Samples.database Samples.bob) /\
  returns_truthy
    (can_accept Samples.request (Some (LoggedIn Samples.bob)) Samples.noon).
Proof.
  destruct (dashboard_offers Samples.database Samples.bob Samples.noon)
    as (_ & Hsound & Hcomplete).
  assert (Hin : In Samples.request
                  (available_requests Samples.database Samples.bob))
    by (left; reflexivity).
  split; [exact Hin|].
  apply (proj2 (proj2 (proj2 (proj2 (proj2 (Hsound _ Hin)))))).
  split; [exists (VBool true); split; reflexivity | reflexivity].
Defined.

(** ** Logging in *)

Lemma get_user_by_email_In (table : list User) (address : string) (u : User) :
  get_user_by_email table address = Ret u ->
  In u table /\ email u = address.
Proof.
  unfold get_user_by_email. intros H.
  assert (Hin : In u (filter (fun r => (email r =? address)%string) table)).
  { destruct (filter _ table) as [|x [|y l]]; try discriminate.
    injection H as ->. now left. }
  apply filter_In in Hin as [Hin He]. now apply String.eqb_eq in He.
Qed.

Lemma authenticate_Some (is_active : User -> bool)
    (check_password : User -> string -> bool) (table : list User)
    (address password : string) (u : User) :
  authenticate is_active check_password table address password
  = Ret (Some u) ->
  get_user_by_email table address = Ret u /\
  check_password u password = true /\ is_active u = true.
Proof.
  unfold authenticate.
  destruct (get_user_by_email table address) as [x|e].
  - destruct (check_password x password && is_active x) eqn:E;
      [|discriminate].
    intros H. injection H as ->. apply andb_true_iff in E. tauto.
  - destruct e; discriminate.
Qed.

Lemma login_clean_email_nonblank (address : string) :
  address <> "" -> login_clean_email address = strip (lower address).
Proof.
  intros H. unfold login_clean_email. cbn [truthy].
  destruct (String.eqb_spec address ""); [contradiction | reflexivity].
Qed.

(** X18.  [UserLoginView] logs a user in exactly on these terms.  The
    address posted is first put in lower case and stripped by
    [clean_email]; when the view logs a user in, that user is the row of
    the table whose address is the posted one so normalised, the address
    is verified, the account is active and the password checks, and the
    session lasts two weeks with "remember me" and until the browser
    closes without.  Conversely a visitor who posts a well-formed address
    that, once normalised, belongs to exactly one user, verified and
    active, together with that user's password, is logged in as that
    user.  (Addresses are taken to be written in ASCII.) *)
Theorem login_requires_verified_account (is_active : User -> bool)
    (check_password : User -> string -> bool)
    (valid_address : string -> bool) (table : list User)
    (current : principal) (address password : string) (remember_me : bool) :
  is_ascii address = true ->
  (forall u expiry,
     login_view is_active check_password valid_address table current address
       password remember_me = LoggedInAs u expiry ->
     current = AnonymousUser /\
     valid_address address = true /\
     In u table /\ email u = strip (lower address) /\
     is_email_verified u = true /\
     is_active u = true /\
     check_password u password = true /\
     expiry = (if remember_me then 1209600 else 0)) /\
  (forall u,
     current = AnonymousUser ->
     address <> "" -> password <> "" ->
     valid_address address = true ->
     get_user_by_email table (strip (lower address)) = Ret u ->
     is_email_verified u = true ->
     is_active u = true ->
     check_password u password = true ->
     login_view is_active check_password valid_address table current address
       password remember_me =
     LoggedInAs u (if remember_me then 1209600 else 0)).
Proof.
  intros _. split.
  - intros u expiry. unfold login_view.
    destruct current as [|c]; [|discriminate].
    destruct (String.eqb_spec address "") as [Ea|Ea]; [discriminate|].
    destruct (String.eqb_spec password ""); [discriminate|]. cbn [orb].
    destruct (valid_address address); cbn [negb]; [|discriminate].
    cbv zeta. rewrite (login_clean_email_nonblank address Ea).
    destruct (login_form_clean _ _ _ _ _); try discriminate.
    destruct (authenticate is_active check_password table
                (strip (lower address)) password)
      as [[user|]|e] eqn:Ha; try discriminate.
    destruct (is_email_verified user) eqn:Hv; [|discriminate].
    intros H. injection H as <- <-.
    apply authenticate_Some in Ha as (Hg & Hp & Hact).
    apply get_user_by_email_In in Hg as [Hin He]. tauto.
  - intros u -> Ea Ep Hs Hg Hv Hact Hp. unfold login_view.
    destruct (String.eqb_spec address ""); [contradiction|].
    destruct (String.eqb_spec password ""); [contradiction|].
    rewrite Hs. cbn [orb negb]. cbv zeta.
    rewrite (login_clean_email_nonblank address Ea).
    assert (Hauth : authenticate is_active check_password table
                      (strip (lower address)) password = Ret (Some u))
      by (unfold authenticate; now rewrite Hg, Hp, Hact).
    assert (Hclean : exists x,
               login_form_clean is_active check_password table
                 (strip (lower address)) password = Valid x).
    { unfold login_form_clean.
      destruct (negb (strip (lower address) =? "")%string &&
                negb (password =? "")%string); [|eauto].
      rewrite Hg, Hact, Hv, Hauth. cbn [negb]. eauto. }
    destruct Hclean as [x ->]. rewrite Hauth, Hv. reflexivity.
Qed.

(** Bob types his address with capitals; it is put in lower case, found,
    and he is logged in until the browser closes. *)
Lemma login_requires_verified_account_witness :
  login_view Scenarios.active Scenarios.password_is_secret
    Scenarios.any_address Samples.everyone AnonymousUser
    "BOB@Example.org" "secret" false = LoggedInAs Samples.bob 0 /\
  email Samples.bob = strip (lower "BOB@Example.org").
Proof.
  destruct (login_requires_verified_account Scenarios.active
              Scenarios.password_is_secret Scenarios.any_address
              Samples.everyone AnonymousUser "BOB@Example.org" "secret" false
              eq_refl) as [Honly Hlogin].
  assert (H : login_view Scenarios.active Scenarios.password_is_secret
                Scenarios.any_address Samples.everyone AnonymousUser
                "BOB@Example.org" "secret" false = LoggedInAs Samples.bob 0).
  { apply (Hlogin Samples.bob); try reflexivity; discriminate. }
  split; [exact H|].
  destruct (Honly Samples.bob 0 H) as (_ & _ & _ & He & _). exact He.
Defined.



(** ** Age from one day to the next *)

(** X20.  From one day to the next the age [get_age] computes stays the
    same or goes up by one; it never goes down. *)
Theorem get_age_never_decreases (u : User) (dob today : date) :
  date_of_birth u = Some dob ->
  month_day_ok today ->
  exists a b,
    get_age u today = Ret (VInt a) /\
    get_age u (next_day today) = Ret (VInt b) /\
    (b = a \/ b = a + 1).
Proof.
  intros Hd [Hm Hday]. rewrite !get_age_eq, Hd.
  exists (age_on dob today), (age_on dob (next_day today)).
  split; [reflexivity|]. split; [reflexivity|].
  unfold age_on, next_day, pair_lt. cbn [fst snd].
  destruct (Z.ltb_spec (day today) (days_in_month (year today) (month today)));
    [|destruct (Z.ltb_spec (month today) 12)];
    cbn [year month day];
    repeat match goal with
           | |- context [?a <? ?b] => destruct (Z.ltb_spec a b)
           | |- context [?a =? ?b] => destruct (Z.eqb_spec a b)
           end; cbn [orb andb Z.b2z]; lia.
Qed.

(** Bob is 30 on 15 June 2024 and on the 16th. *)
Lemma get_age_never_decreases_witness :
  exists a b,
    get_age Samples.bob (mkDate 2024 6 15) = Ret (VInt a) /\
    get_age Samples.bob (next_day (mkDate 2024 6 15)) = Ret (VInt b) /\
    (b = a \/ b = a + 1).
Proof.
  apply (get_age_never_decreases Samples.bob (mkDate 1994 1 10)
           (mkDate 2024 6 15) eq_refl).
  split; cbn; lia.
Defined.

(** ** Accepting and being listed *)

(** X21.  A verified user of the table who can accept a request is among
    its compatible donors.  [can_accept] itself does not look at the
    verification flag. *)
Theorem acceptor_is_compatible_donor (table : list User) (r : BloodRequest)
    (u : User) (now : datetime) :
  In u table ->
  returns_truthy (can_accept r (Some (LoggedIn u)) now) ->
  (is_email_verified u = true <-> In u (get_compatible_donors table r)) /\
  can_accept r (Some (LoggedIn (set_is_email_verified u false))) now =
  can_accept r (Some (LoggedIn u)) now.
Proof.
  intros Hin Hacc. split.
  - apply can_accept_iff in Hacc.
    destruct Hacc as (u' & Hu' & Hne & He & Hbg & _). injection Hu' as <-.
    apply eligible_iff in He. destruct He as (_ & _ & _ & Hc).
    rewrite can_donate_eq in Hc. injection Hc as Hc.
    apply andb_true_iff in Hc as [Hc _]. apply andb_true_iff in Hc as [Hd Ha].
    unfold get_compatible_donors. rewrite !filter_In.
    rewrite !andb_true_iff, negb_true_iff, Z.eqb_neq, String.eqb_eq.
    rewrite !eqb_true_iff. tauto.
  - reflexivity.
Qed.

(** Bob can accept the sample request and is one of its compatible
    donors. *)
Lemma acceptor_is_compatible_donor_witness :
  In Samples.bob (get_compatible_donors Samples.everyone Samples.request).
Proof.
  apply (proj1 (acceptor_is_compatible_donor Samples.everyone Samples.request
                  Samples.bob Samples.noon
                  ltac:(cbn; tauto)
                  ltac:(exists (VBool true); split; reflexivity))).
  reflexivity.
Defined.

(** ** The age shown in the admin *)

Lemma years_is_not_the_placeholder (z : Z) :
  (NilZero.string_of_int (Z.to_int z) ++ " years")%string <> "Not provided".
Proof.
  destruct (Z.to_int z) as [d|d]; destruct d; discriminate.
Qed.

(** X22.  The admin shows "Not provided" for the age exactly when the
    date of birth is missing or the age is 0, so also for a child under
    one year whose date of birth is on file; otherwise it shows the age
    in decimal followed by " years".  It never raises. *)
Theorem get_age_display_spec (u : User) (today : date) :
  (get_age_display u today = Ret "Not provided" <->
     date_of_birth u = None \/
     exists dob, date_of_birth u = Some dob /\ age_on dob today = 0) /\
  (forall dob, date_of_birth u = Some dob -> age_on dob today <> 0 ->
     get_age_display u today =
     Ret (NilZero.string_of_int (Z.to_int (age_on dob today)) ++ " years")) /\
  (exists s, get_age_display u today = Ret s).
Proof.
  unfold get_age_display. rewrite get_age_eq.
  destruct (date_of_birth u) as [dob|]; cbn [bind truthy format_int].
  - destruct (Z.eqb_spec (age_on dob today) 0) as [E|E]; cbn [negb].
    + split; [|split].
      * split; [intros _; right; eauto | reflexivity].
      * intros d Hd. injection Hd as <-. contradiction.
      * eauto.
    + split; [|split].
      * split.
        -- intros H. injection H as H.
           now apply years_is_not_the_placeholder in H.
        -- intros [H | (d & Hd & H0)]; [discriminate|].
           injection Hd as <-. contradiction.
      * intros d Hd _. now injection Hd as <-.
      * eauto.
  - split; [|split].
    + split; [auto | reflexivity].
    + intros d Hd. discriminate.
    + eauto.
Qed.

(** Bob is shown as "30 years". *)
Lemma get_age_display_spec_witness :
  get_age_display Samples.bob (mkDate 2024 6 15) = Ret "30 years".
Proof.
  apply (proj1 (proj2 (get_age_display_spec Samples.bob (mkDate 2024 6 15)))
           (mkDate 1994 1 10) eq_refl).
  vm_compute. discriminate.
Defined.

(** ** Editing a request *)

Lemma same_key_same_row {A} (key : A -> Z) (rows : list A) (a b : A) :
  NoDup (map key rows) -> In a rows -> In b rows -> key a = key b -> a = b.
Proof.
  induction rows as [|r rows IH]; [intros _ []|].
  cbn [map]. intros Hn Ha Hb Hk. apply NoDup_cons_iff in Hn as [Hr Hn].
  destruct Ha as [-> | Ha], Hb as [-> | Hb].
  - reflexivity.
  - elim Hr. rewrite Hk. now apply in_map.
  - elim Hr. rewrite <- Hk. now apply in_map.
  - now apply IH.
Qed.

Lemma blood_request_form_valid_deadline (f : BloodRequestFormData)
    (now : datetime) :
  blood_request_form_is_valid f now = true ->
  exists deadline, brf_needed_by_date f = Some deadline /\
                   instant now < instant deadline.
Proof.
  unfold blood_request_form_is_valid. rewrite !andb_true_iff.
  intros (((_ & _) & Hd) & _).
  destruct (brf_needed_by_date f) as [d|]; [|discriminate].
  exists d. split; [reflexivity|].
  change (clean_needed_by_date (Some d) now)
    with (if instant d <=? instant now
          then @Invalid (option datetime)
                 "The needed by date must be in the future."
          else Valid (Some d)) in Hd.
  destruct (Z.leb_spec (instant d) (instant now)); [discriminate | assumption].
Qed.

Lemma update_request_view_cases (db : Database) (user : principal)
    (method : http_method) (f : BloodRequestFormData) (now : datetime)
    (pk : Z) :
  fst (update_request_view db user method f now pk) = db \/
  exists u req,
    user = LoggedIn u /\ method = POST /\
    blood_request_form_is_valid f now = true /\
    In req (blood_requests db) /\ request_id req = pk /\
    id (requester req) = id u /\
    fst (update_request_view db user method f now pk) =
    mkDatabase (users db)
      (map (fun r => if request_id r =? pk then apply_request_form req f
                     else r) (blood_requests db))
      (responses db) (profiles db).
Proof.
  unfold update_request_view. destruct user as [|u]; [now left|].
  destruct (get_own_request db u pk) as [req|] eqn:E; [|now left].
  destruct method; [now left|].
  destruct (blood_request_form_is_valid f now) eqn:Hv; [|now left].
  right. apply get_own_request_sound in E as (Hin & Hpk & Ho).
  exists u, req. rewrite Hpk. repeat split; trivial.
Qed.

(** X23.  Through [BloodRequestUpdateView] only the user who posted a
    request can change it, and only the fields of the form: the key, the
    requester and the status of the request stay what they were, so the
    views offer no way of closing a request.  After a valid update the
    request is not expired, whatever its deadline was before; every other
    request is left alone. *)
Theorem update_request_view_spec (db : Database) (user : principal)
    (method : http_method) (f : BloodRequestFormData) (now : datetime)
    (pk : Z) :
  NoDup (map request_id (blood_requests db)) ->
  let db' := fst (update_request_view db user method f now pk) in
  (forall u, user = LoggedIn u ->
     (forall r, In r (blood_requests db) -> request_id r = pk ->
                id (requester r) <> id u) ->
     db' = db) /\
  (user = AnonymousUser \/ method = GET \/
   blood_request_form_is_valid f now = false -> db' = db) /\
  map request_id (blood_requests db') = map request_id (blood_requests db) /\
  map requester (blood_requests db') = map requester (blood_requests db) /\
  map status (blood_requests db') = map status (blood_requests db) /\
  (forall r, In r (blood_requests db) -> request_id r <> pk ->
             In r (blood_requests db')) /\
  (forall u req, user = LoggedIn u -> method = POST ->
     blood_request_form_is_valid f now = true ->
     get_own_request db u pk = Some req ->
     In (apply_request_form req f) (blood_requests db') /\
     is_expired (apply_request_form req f) now = Ret (VBool false)).
Proof.
  intros Hn. cbv zeta.
  destruct (update_request_view_cases db user method f now pk)
    as [E | (u & req & Hu & Hm & Hv & Hin & Hpk & Ho & E)].
  - rewrite E. split; [auto|]. split; [auto|].
    repeat (split; [reflexivity|]). split; [auto|].
    intros u req -> -> Hv Hown. revert E. unfold update_request_view.
    rewrite Hown, Hv. cbn [fst]. intros E.
    apply get_own_request_sound in Hown as (Hin & Hpk & _).
    rewrite <- E. cbn [blood_requests]. split.
    + apply in_map_iff. exists req. split; [|exact Hin].
      now rewrite Z.eqb_refl.
    + rewrite is_expired_eq. unfold expired_at, datetime_gt.
      cbn [needed_by_date apply_request_form].
      apply blood_request_form_valid_deadline in Hv as (d & -> & Hlt).
      f_equal. f_equal. apply Z.ltb_ge. lia.
  - split; [|split].
    + intros u' Hu' Hno. subst user. injection Hu' as <-.
      now elim (Hno req Hin Hpk).
    + intros [H | [H | H]]; [subst; discriminate | subst; discriminate |
                              congruence].
    + rewrite E. cbn [blood_requests].
      assert (Hrow : forall r, In r (blood_requests db) ->
                request_id (if request_id r =? pk
                            then apply_request_form req f else r)
                = request_id r /\
                requester (if request_id r =? pk
                           then apply_request_form req f else r)
                = requester r /\
                status (if request_id r =? pk
                        then apply_request_form req f else r)
                = status r).
      { intros r Hr. destruct (Z.eqb_spec (request_id r) pk) as [Er|Er];
          [|auto].
        assert (r = req) as ->
            by (apply (same_key_same_row request_id (blood_requests db));
                trivial; congruence).
        auto. }
      rewrite !map_map.
      split; [apply map_ext_in; intros r Hr; apply (Hrow r Hr)|].
      split; [apply map_ext_in; intros r Hr; apply (Hrow r Hr)|].
      split; [apply map_ext_in; intros r Hr; apply (Hrow r Hr)|].
      split.
      * intros r Hr Hne. apply in_map_iff. exists r. split; [|exact Hr].
        destruct (Z.eqb_spec (request_id r) pk); [contradiction | reflexivity].
      * intros u' req' Hu' _ _ Hown. subst user. injection Hu' as <-.
        apply get_own_request_sound in Hown as (Hin' & Hpk' & _).
        assert (req' = req) as ->
            by (apply (same_key_same_row request_id (blood_requests db));
                trivial; congruence).
        split.
        -- apply in_map_iff. exists req. split; [|exact Hin].
           rewrite Hpk. now rewrite Z.eqb_refl.
        -- rewrite is_expired_eq. unfold expired_at, datetime_gt.
           cbn [needed_by_date apply_request_form].
           apply blood_request_form_valid_deadline in Hv as (d & -> & Hlt).
           f_equal. f_equal. apply Z.ltb_ge. lia.
Qed.

(** Alice moves the deadline of the sample request; Bob cannot. *)
Lemma update_request_view_spec_witness :
  fst (update_request_view Samples.database (LoggedIn Samples.bob) POST
         Scenarios.alice_form Samples.noon 10) = Samples.database /\
  map status
    (blood_requests
       (fst (update_request_view Samples.database (LoggedIn Samples.alice)
               POST Scenarios.alice_form Samples.noon 10))) = ["ACTIVE"].
Proof.
  assert (Hn : NoDup (map request_id (blood_requests Samples.database))).
  { cbn. constructor; [intros [] | constructor]. }
  split.
  - apply (proj1 (update_request_view_spec Samples.database
                    (LoggedIn Samples.bob) POST Scenarios.alice_form
                    Samples.noon 10 Hn) Samples.bob eq_refl).
    intros r [<- | []] _. discriminate.
  - destruct (update_request_view_spec Samples.database
                (LoggedIn Samples.alice) POST Scenarios.alice_form
                Samples.noon 10 Hn) as (_ & _ & _ & _ & Hs & _).
    exact Hs.
Defined.

(** ** The site as a whole *)

Lemma kept_rows_have_distinct_keys {A} (key : A -> Z) (keep : A -> bool)
    (rows : list A) :
  NoDup (map key rows) -> NoDup (map key (filter keep rows)).
Proof.
  induction rows as [|row rest IH]; cbn [map filter]; intros Hu; [exact Hu|].
  apply NoDup_cons_iff in Hu as [Hfresh Hrest].
  destruct (keep row); [|now apply IH].
  cbn [map]. apply NoDup_cons_iff. split; [|now apply IH].
  intros Hin. apply Hfresh.
  apply in_map_iff in Hin as (other & Hkey & Hin).
  apply filter_In in Hin as [Hin _].
  rewrite <- Hkey. now apply in_map.
Qed.

Lemma save_user_keys (db : Database) (u0 v : User) (now : datetime) :
  NoDup (map id (users db)) -> In u0 (users db) ->
  id v = id u0 -> email v = email u0 ->
  map id (users (save_user db v now)) = map id (users db) /\
  map email (users (save_user db v now)) = map email (users db).
Proof.
  intros Hn Hin Hid Hem. cbn [save_user users]. rewrite !map_map.
  split; apply map_ext_in; intros r Hr;
    destruct (Z.eqb_spec (id r) (id v)) as [E|E]; try reflexivity.
  - cbn [id set_updated_at]. congruence.
  - assert (r = u0) as ->
        by (apply (same_key_same_row id (users db)); trivial; congruence).
    cbn [email set_updated_at]. exact Hem.
Qed.

Lemma consistent_users_changed (db db' : Database) :
  blood_requests db' = blood_requests db ->
  responses db' = responses db ->
  NoDup (map id (users db')) ->
  NoDup (map email (users db')) ->
  consistent db -> consistent db'.
Proof.
  intros Hr Hx Hi He (_ & _ & H3 & H4 & H5 & H6).
  unfold consistent, unique_responses, responses_from_others in *.
  rewrite Hr, Hx. auto 6.
Qed.

Lemma register_view_consistent (db : Database) (f : RegistrationForm)
    (today : date) (now : datetime) (pk token : Z) :
  ~ In pk (map id (users db)) ->
  consistent db ->
  consistent (fst (register_view db f today now pk token)).
Proof.
  intros Hfresh Hc.
  destruct (registration_form_is_valid (users db) f today) eqn:Hv.
  - pose proof (register_view_users db f today now pk token Hfresh Hv) as Hu.
    destruct Hc as (H1 & H2 & Hrest).
    apply (consistent_users_changed db);
      [unfold register_view; now rewrite Hv
      |unfold register_view; now rewrite Hv
      | | | repeat split; tauto].
    + rewrite Hu. cbn [map new_user id]. now constructor.
    + rewrite Hu. cbn [map new_user email]. constructor; [|exact H2].
      apply registration_valid_parts in Hv as (He & _).
      intros Hin. apply email_exists_iff in Hin. congruence.
  - unfold register_view. now rewrite Hv.
Qed.

Lemma save_known_user_consistent (db : Database) (u0 v : User)
    (now : datetime) :
  In u0 (users db) -> id v = id u0 -> email v = email u0 ->
  consistent db -> consistent (save_user db v now).
Proof.
  intros Hin Hid Hem Hc. pose proof Hc as (H1 & H2 & _).
  destruct (save_user_keys db u0 v now H1 Hin Hid Hem) as [Ei Ee].
  apply (consistent_users_changed db); trivial; congruence.
Qed.

Lemma served_consistent (db db' : Database) :
  served db db' -> consistent db -> consistent db'.
Proof.
  intros [d f today now pk token Hfresh
         | d token now
         | d user method posted now Hk
         | d user f now pk Hk Hfresh
         | d user method f now pk Hk
         | d user method pk Hk
         | d now user method form pk Hk] Hc.
  - now apply register_view_consistent.
  - unfold email_verification_view.
    destruct (get_user_by_token (users d) token) as [u|e] eqn:Hu.
    + destruct (negb (is_email_verified u)); [|exact Hc].
      apply get_user_by_token_In in Hu as [Hin _].
      now apply (save_known_user_consistent d u).
    + destruct e; exact Hc.
  - unfold update_donation_status. destruct user as [|u]; [exact Hc|].
    destruct method; [exact Hc|].
    now apply (save_known_user_consistent d u).
  - unfold create_request_view. destruct user as [|u]; [exact Hc|].
    destruct (blood_request_form_is_valid f now); [|exact Hc].
    destruct Hc as (H1 & H2 & H3 & H4 & H5 & H6).
    cbn [fst]. unfold consistent, unique_responses, responses_from_others.
    cbn [users blood_requests responses map].
    repeat split; trivial.
    + now constructor.
    + intros r [<- | Hr]; [reflexivity | now apply H4].
    + intros x Hx. destruct (H6 x Hx) as (r & Hr & Hid & Hne).
      exists r. split; [now right | tauto].
  - destruct (update_request_view_cases d user method f now pk)
      as [-> | (u & req & _ & _ & _ & Hin & Hpk & _ & ->)]; [exact Hc|].
    destruct Hc as (H1 & H2 & H3 & H4 & H5 & H6).
    assert (Hrow : forall r, In r (blood_requests d) ->
              let r' := if request_id r =? pk
                        then apply_request_form req f else r in
              request_id r' = request_id r /\ requester r' = requester r /\
              status r' = status r).
    { intros r Hr. cbv zeta.
      destruct (Z.eqb_spec (request_id r) pk) as [Er|Er]; [|auto].
      assert (r = req) as ->
          by (apply (same_key_same_row request_id (blood_requests d));
              trivial; congruence).
      auto. }
    unfold consistent, unique_responses, responses_from_others.
    cbn [users blood_requests responses].
    repeat split; trivial.
    + rewrite map_map.
      rewrite (map_ext_in _ request_id); [exact H3|].
      intros r Hr. apply (Hrow r Hr).
    + intros r' Hr'. apply in_map_iff in Hr' as (r & <- & Hr).
      destruct (Hrow r Hr) as (_ & _ & ->). now apply H4.
    + intros x Hx. destruct (H6 x Hx) as (r & Hr & Hid & Hne).
      eexists. split; [apply in_map_iff; exists r; split;
                       [reflexivity | exact Hr]|].
      destruct (Hrow r Hr) as (-> & -> & _). tauto.
  - unfold delete_request_view. destruct user as [|u]; [exact Hc|].
    destruct (get_own_request d u pk) as [req|]; [|exact Hc].
    destruct method; [exact Hc|].
    destruct Hc as (H1 & H2 & H3 & H4 & H5 & H6).
    unfold consistent, unique_responses, responses_from_others.
    cbn [fst delete_request users blood_requests responses].
    repeat split; trivial.
    + now apply kept_rows_have_distinct_keys.
    + intros r Hr. apply filter_In in Hr as [Hr _]. now apply H4.
    + now apply delete_keeps_keys_distinct.
    + intros x Hx. apply filter_In in Hx as [Hx Hne].
      apply negb_true_iff, Z.eqb_neq in Hne.
      destruct (H6 x Hx) as (r & Hr & Hid & Hd). exists r.
      split; [|tauto]. apply filter_In. split; [exact Hr|].
      apply negb_true_iff, Z.eqb_neq. congruence.
  - pose proof Hc as (H1 & H2 & H3 & H4 & H5 & H6).
    assert (Hu : unique_responses
                   (fst (respond_view d now user method form pk)))
      by (eapply step_unique; [apply step_respond | exact H5]).
    destruct (respond_view_written d now user method form pk)
      as [E | (req & u & Hin & Hne & E)]; [now rewrite E|].
    rewrite E in *. unfold consistent, responses_from_others.
    cbn [users blood_requests responses with_responses].
    repeat split; trivial.
    intros x [<- | Hx]; [|now apply H6].
    exists req. cbn [blood_request donor]. auto.
Qed.

(** X24.  Whatever requests the views have served since the database was
    empty: no two users share a key or an e-mail address; no two requests
    share a key; every request is still ['ACTIVE']; a donor has at most
    one response per request; and every response is for a request of the
    table that was posted by somebody other than the donor. *)
Theorem site_is_consistent (db : Database) : site_state db -> consistent db.
Proof.
  induction 1 as [|db db' _ IH Hs].
  - unfold consistent, unique_responses, responses_from_others. cbn.
    repeat split; try constructor; intros ? [].
  - now apply (served_consistent db).
Qed.

(** Ivan registers on an empty site. *)
Lemma site_is_consistent_witness :
  consistent
    (fst (register_view (mkDatabase [] [] [] []) Scenarios.ivan_form
            (mkDate 2024 6 15) Samples.noon 9 1009)).
Proof.
  apply site_is_consistent.
  apply (site_served (mkDatabase [] [] [] [])); [apply site_empty|].
  apply served_register. intros [].
Defined.
